(** * Smart House Planner: the layout sizing functions

    A shallow embedding of the sizing logic of the planner
    ([planner/logic/floor_plan.py], the simulated path of
    [planner/logic/blender_3d.py] and the fallback selections of
    [planner/views.py]) together with the properties stated for it.

    Python numbers are modelled as the interpreter has them: [int] is an
    unbounded integer ([Z]); [float] is an IEEE-754 binary64 value, taken
    from the Standard Library's executable specification [SpecFloat]
    (precision 53, exponent bound 1024, round to nearest even).  An
    exception raised by a Python expression is an explicit [Raise]. *)

From Stdlib Require Import ZArith Zpower Lia Bool List String Ascii.
From Stdlib Require Import Floats.SpecFloat.
From Stdlib Require Import DecimalString.
Import ListNotations.

Local Open Scope Z_scope.

(** ** Exceptions *)

Module Py.

Inductive exn : Type :=
| OverflowError
| ValueError.

Inductive result (A : Type) : Type :=
| Ok (a : A)
| Raise (e : exn).

Arguments Ok {A} a.
Arguments Raise {A} e.

Definition bind {A B : Type} (r : result A) (k : A -> result B) : result B :=
  match r with
  | Ok a => k a
  | Raise e => Raise e
  end.

Definition is_ok {A : Type} (r : result A) : bool :=
  match r with Ok _ => true | Raise _ => false end.

End Py.

Import Py.

Notation "x <- c ;; k" := (Py.bind c (fun x => k))
  (at level 61, c at next level, right associativity).

(** ** Python floats (binary64) *)

Module PyFloat.

Definition prec : Z := 53.
Definition emax : Z := 1024.

Definition float := spec_float.

(** The double nearest to an integer, an infinity past the largest double. *)
Definition of_Z (z : Z) : float := binary_normalize prec emax z 0 false.

(** [float(n)] for an [int]: [PyLong_AsDouble] rounds to nearest even and
    raises [OverflowError] ("int too large to convert to float") where the
    rounded value is not a finite double. *)
Definition of_int (z : Z) : result float :=
  match of_Z z with
  | S754_infinity _ => Raise OverflowError
  | f => Ok f
  end.

Definition mul (x y : float) : float := SFmul prec emax x y.

(** [n * y] with [n] an [int] and [y] a [float]: the [int] is converted
    first, then the two doubles are multiplied (an overflow of the product
    gives an infinity, not an exception). *)
Definition int_mul (n : Z) (y : float) : result float :=
  x <- of_int n ;; Ok (mul x y).

(** [x <= n] for a small integer literal [n] (below 2^48 in magnitude the
    interpreter converts the literal exactly and compares the doubles). *)
Definition le_int (x : float) (n : Z) : bool := SFleb x (of_Z n).
Definition int_lt (n : Z) (x : float) : bool := SFltb (of_Z n) x.

(** The literal [435.6]: the double nearest to 4356/10. *)
Definition c435_6 : float := S754_finite false 7663156240947610 (-44).

(** Round [X / 2^n] to the nearest integer, ties to even ([X >= 0], [n >= 1]). *)
Definition rne_shift (X n : Z) : Z :=
  let q := X / 2 ^ n in
  let r := X mod 2 ^ n in
  match 2 * r ?= 2 ^ n with
  | Lt => q
  | Eq => if Z.even q then q else q + 1
  | Gt => q + 1
  end.

(** The integer nearest to the magnitude of a finite double, ties to even. *)
Definition nearest_int (m : positive) (e : Z) : Z :=
  if 0 <=? e then Z.pos m * 2 ^ e else rne_shift (Z.pos m) (- e).

Definition decimal (n : Z) : string := NilZero.string_of_uint (N.to_uint (Z.to_N n)).

(** [f"{x:.0f}"]: the exact value rounded to an integer, ties to even. *)
Definition format_0f (x : float) : string :=
  match x with
  | S754_nan => "nan"
  | S754_infinity s => if s then "-inf" else "inf"
  | S754_zero s => if s then "-0" else "0"
  | S754_finite s m e =>
      ((if s then "-" else "") ++ decimal (nearest_int m e))%string
  end.

(** [int(round(x))]: [round] of a float without [ndigits] returns the
    nearest [int], ties to even, and raises on an infinity or a NaN. *)
Definition round_to_int (x : float) : result Z :=
  match x with
  | S754_nan => Raise ValueError
  | S754_infinity _ => Raise OverflowError
  | S754_zero _ => Ok 0
  | S754_finite s m e => Ok (if s then - nearest_int m e else nearest_int m e)
  end.

End PyFloat.

Import PyFloat.

(** ** planner/logic/floor_plan.py *)

Module FloorPlan.

Definition get_house_type (land_cents : Z) : string :=
  if land_cents <=? 5 then "Single Floor House"
  else if land_cents <=? 10 then "Duplex"
  else "Villa".

(** The dictionary returned by [calculate_room_config], one field per key. *)
Record room_config : Type := RoomConfig {
  Bedrooms : Z;
  Bathrooms : Z;
  Kitchen : Z;
  Hall : Z;
  Parking : string;
  Balcony : string;
  Total_Area : string
}.

Definition total_area (sqft : float) : string :=
  (format_0f sqft ++ " sq ft")%string.

(** The branches of [calculate_room_config] on the computed [sqft]. *)
Definition room_config_of_sqft (sqft : float) : room_config :=
  if le_int sqft 1000 then
    RoomConfig 2 1 1 1 "1 compact" "Small balcony" (total_area sqft)
  else if le_int sqft 2000 then
    RoomConfig 3 2 1 1 "1 car" "Medium balcony" (total_area sqft)
  else
    RoomConfig 4 3 2 2 "2-car garage" "Large balcony + terrace" (total_area sqft).

Definition calculate_room_config (land_cents : Z) : result room_config :=
  sqft <- int_mul land_cents c435_6 ;;
  Ok (room_config_of_sqft sqft).

(** The three records, named by their size. *)
Definition small_config (sqft : float) : room_config :=
  RoomConfig 2 1 1 1 "1 compact" "Small balcony" (total_area sqft).
Definition medium_config (sqft : float) : room_config :=
  RoomConfig 3 2 1 1 "1 car" "Medium balcony" (total_area sqft).
Definition large_config (sqft : float) : room_config :=
  RoomConfig 4 3 2 2 "2-car garage" "Large balcony + terrace" (total_area sqft).

(** The four numeric counts of a record. *)
Definition counts (r : room_config) : Z * Z * Z * Z :=
  (Bedrooms r, Bathrooms r, Kitchen r, Hall r).

End FloorPlan.

Import FloorPlan.

(** ** planner/logic/blender_3d.py *)

Module Blender3D.

(** The sizing functions return a [(width, length)] pair.  The module-level
    flag [BLENDER_AVAILABLE] is a parameter.  Where the host application is
    available the functions also build scene objects through its API before
    returning; those calls do not change the returned pair and are left out. *)
Section Sizing.

Variable BLENDER_AVAILABLE : bool.

Definition create_floor_plan
  (land_cents : Z) (house_type : string) (rc : room_config) : result (Z * Z) :=
  if negb BLENDER_AVAILABLE then
    sqft <- int_mul land_cents c435_6 ;;
    if le_int sqft 1000 then Ok (30, 35)
    else if le_int sqft 2000 then Ok (40, 50)
    else Ok (50, 70)
  else
    sqft <- int_mul land_cents c435_6 ;;
    let '(width, length) :=
      if le_int sqft 1000 then (30, 35)
      else if le_int sqft 2000 then (40, 50)
      else (50, 70) in
    Ok (width, length).

Definition create_detailed_floor_plan
  (land_cents : Z) (house_type : string) (rc : room_config) : result (Z * Z) :=
  if negb BLENDER_AVAILABLE then
    sqft <- int_mul land_cents c435_6 ;;
    if le_int sqft 1000 then Ok (30, 35)
    else if le_int sqft 2000 then Ok (40, 50)
    else Ok (50, 70)
  else
    sqft <- int_mul land_cents c435_6 ;;
    let '(width, length) :=
      if String.eqb house_type "1BHK" then (25, 30)
      else if String.eqb house_type "2BHK" then (35, 40)
      else if String.eqb house_type "3BHK" then (45, 50)
      else (55, 60) in
    Ok (width, length).

End Sizing.

End Blender3D.

Import Blender3D.

(** ** planner/views.py *)

Module Views.

(** [str.upper] and [str.startswith] on ASCII text. *)
Definition upper_ascii (c : ascii) : ascii :=
  let n := N_of_ascii c in
  if ((97 <=? n) && (n <=? 122))%N then ascii_of_N (n - 32) else c.

Fixpoint upper (s : string) : string :=
  match s with
  | EmptyString => EmptyString
  | String c s' => String (upper_ascii c) (upper s')
  end.

Definition startswith (s p : string) : bool := String.prefix p s.

(** The fallback GLB chosen in [result]. *)
Definition result_source_glb (land_cents : Z) : string :=
  if land_cents <=? 3 then "1bhk.glb"
  else if (4 <=? land_cents) && (land_cents <=? 6) then "2bhk.glb"
  else if (7 <=? land_cents) && (land_cents <=? 10) then "3bhk.glb"
  else "villa.glb".

(** The fallback GLB chosen in [download_3d_model]. *)
Definition download_source_glb (land_cents : Z) : string :=
  if land_cents <=? 3 then "1bhk.glb"
  else if (4 <=? land_cents) && (land_cents <=? 6) then "2bhk.glb"
  else if (7 <=? land_cents) && (land_cents <=? 10) then "3bhk.glb"
  else "villa.glb".

(** [int(round(land_cents * 435.6))], the [sqft] shown by [result]. *)
Definition result_sqft (land_cents : Z) : result Z :=
  x <- int_mul land_cents c435_6 ;; round_to_int x.

(** The fallback reports.  A constructor stands for the literal text of one
    branch and carries the values interpolated into it. *)
Inductive summary_report : Type :=
| Summary1BHK (project_id orientation : string)
| Summary2BHK (project_id orientation : string)
| Summary3BHK (project_id orientation : string)
| SummaryVilla (project_id orientation : string) (sqft : Z).

Inductive technical_report : Type :=
| Technical1BHK
| Technical2BHK
| Technical3BHK
| TechnicalVilla (sqft : Z).

Inductive cost_report : Type :=
| Cost1BHK
| Cost2BHK
| Cost3BHK
| CostVilla (sqft villa_base_cost : Z).

Section Reports.

Variables (house_type fallback_project_id orientation : string) (sqft : Z).

Definition summary_content : summary_report :=
  if startswith (upper house_type) "1BHK" then
    Summary1BHK fallback_project_id orientation
  else if startswith (upper house_type) "2BHK" then
    Summary2BHK fallback_project_id orientation
  else if startswith (upper house_type) "3BHK" then
    Summary3BHK fallback_project_id orientation
  else SummaryVilla fallback_project_id orientation sqft.

Definition technical_content : technical_report :=
  if startswith (upper house_type) "1BHK" then Technical1BHK
  else if startswith (upper house_type) "2BHK" then Technical2BHK
  else if startswith (upper house_type) "3BHK" then Technical3BHK
  else TechnicalVilla sqft.

Definition cost_content : cost_report :=
  if startswith (upper house_type) "1BHK" then Cost1BHK
  else if startswith (upper house_type) "2BHK" then Cost2BHK
  else if startswith (upper house_type) "3BHK" then Cost3BHK
  else
    let villa_base_cost := sqft * 2500 in
    CostVilla sqft villa_base_cost.

End Reports.

End Views.

Import Views.

(** ** Exact values of doubles

    The doubles met by the sizing functions are multiples of 2^-96, so a
    double is measured by the integer [val x = x * 2^96]; an infinity is
    measured by [2^1120], the first power of two past every finite double. *)

Module Exact.

Definition digits (X : Z) : Z := Z.log2 X + 1.

(** [X > 0] rounded to 53 significant bits, ties to even. *)
Definition rnd53 (X : Z) : Z :=
  let n := digits X - 53 in
  if n <=? 0 then X else rne_shift X n * 2 ^ n.

Definition inf_val : Z := 2 ^ 1120.

Definition cap (V : Z) : Z := Z.min V inf_val.

Definition val (x : float) : Z :=
  match x with
  | S754_zero _ => 0
  | S754_nan => 0
  | S754_infinity s => if s then - inf_val else inf_val
  | S754_finite s m e =>
      if s then - (Z.pos m * 2 ^ (e + 96)) else Z.pos m * 2 ^ (e + 96)
  end.

(** Normal doubles with exponent at least -96, zeros and infinities. *)
Definition good (x : float) : Prop :=
  match x with
  | S754_nan => False
  | S754_finite _ m e => 2 ^ 52 <= Z.pos m < 2 ^ 53 /\ -96 <= e <= 971
  | _ => True
  end.

(** What [binary_round_aux] builds from a rounded mantissa and its exponent. *)
Definition pack (s : bool) (M e : Z) : float :=
  let k := digits M - 53 in
  match M / 2 ^ k with
  | Z0 => S754_zero s
  | Zpos m => if e + k <=? 971 then S754_finite s m (e + k) else S754_infinity s
  | Zneg _ => S754_nan
  end.

(** The mantissa kept by the first shift of [binary_round_aux]. *)
Definition rnd_m (N : Z) : Z :=
  let n := digits N - 53 in
  if n =? 0 then N else rne_shift N n.

Definition signed (s : bool) (V : Z) : Z := if s then - V else V.

(** The mantissa of the literal [435.6]. *)
Definition mc : Z := 7663156240947610.

(** [|land_cents * 435.6| * 2^96] as the interpreter computes it. *)
Definition sqft_mag (a : Z) : Z := cap (rnd53 (rnd53 a * 2 ^ 52 * mc)).

(** [land_cents * 435.6 * 2^96] as the interpreter computes it. *)
Definition sqft_val (z : Z) : Z := Z.sgn z * sqft_mag (Z.abs z).

(** The integers that [float] converts without overflow. *)
Definition max_int : Z := 2 ^ 1024 - 2 ^ 970 - 1.

Definition in_range (z : Z) : Prop := - max_int <= z <= max_int.

(** The invariant of [k] one-bit right shifts started on an exact [N]. *)
Definition shr_inv (N : Z) (k : nat) (mrs : shr_record) : Prop :=
  let m := shr_m mrs in
  let r := shr_r mrs in
  let s := shr_s mrs in
  let p := 2 ^ Z.of_nat k in
  0 <= m /\ m = N / p /\
  (r || s = negb (N mod p =? 0)) /\
  (k <> O ->
   r = (p <=? 2 * (N mod p)) /\
   s = negb (N mod p =? 0) && negb (2 * (N mod p) =? p)).

End Exact.

Import Exact.

(** ** Dictionaries, substrings and the text of an [int] *)

Module PyData.

(** A dict literal with string keys, in the order it is written, and
    [d.get(key, default)]. *)
Fixpoint get {V : Type} (d : list (string * V)) (key : string) (default : V) : V :=
  match d with
  | [] => default
  | (k, v) :: d' => if String.eqb key k then v else get d' key default
  end.

(** [k in q] for two strings. *)
Fixpoint contains (q k : string) : bool :=
  String.prefix k q
  || match q with
     | EmptyString => false
     | String _ q' => contains q' k
     end.

(** [str(n)] for an [int]. *)
Definition str_int (n : Z) : string :=
  if n <? 0 then ("-" ++ decimal (- n))%string else decimal n.

(** The largest land area whose product with 435.6 is a finite double. *)
Definition max_finite_area : Z := 10586974330641385 * 2 ^ 962.

End PyData.

Import PyData.

(** ** planner/logic/floor_plan.py: suggestions *)

Module Suggestions.

Definition suggestions : list (string * list string) :=
  [ ("Single Floor House",
     [ "Open concept living area";
       "Efficient space utilization";
       "Natural light optimization";
       "Compact kitchen design" ]);
    ("Duplex",
     [ "Split-level design";
       "Private master suite upstairs";
       "Open living area downstairs";
       "Balcony access from bedrooms" ]);
    ("Villa",
     [ "Luxury master suite with walk-in closet";
       "Formal dining area";
       "Home office space";
       "Entertainment room";
       "Landscaped garden area" ]) ]%string.

Definition get_floor_plan_suggestions
  (house_type : string) (land_cents : Z) : list string :=
  get suggestions house_type [ "Standard layout"%string ].

End Suggestions.

Import Suggestions.

(** ** planner/logic/front_view.py *)

Module FrontView.

Definition get_front_design (house_type orientation : string) : string :=
  let base := (orientation ++ "-facing entry with modern light placement")%string in
  if String.eqb house_type "Single Floor House"%string then
    ("Minimalist front with flat roof, linear windows, and " ++ base ++ ".")%string
  else if String.eqb house_type "Duplex"%string then
    ("Contemporary style with glass balconies and " ++ base ++ ".")%string
  else
    ("Luxury villa with large glass panels, landscaped porch, and " ++ base ++ ".")%string.

Definition elements : list (string * list string) :=
  [ ("Single Floor House",
     [ "Clean geometric lines";
       "Large windows for natural light";
       "Minimalist entrance";
       "Flat roof design";
       "Neutral color palette" ]);
    ("Duplex",
     [ "Glass balconies";
       "Split-level facade";
       "Modern materials (glass, steel)";
       "Contemporary entrance";
       "Rooftop terrace access" ]);
    ("Villa",
     [ "Grand entrance with columns";
       "Large glass panels";
       "Landscaped front yard";
       "Luxury materials (marble, granite)";
       "Multiple balconies and terraces" ]) ]%string.

Definition get_modern_design_elements (house_type : string) : list string :=
  get elements house_type [ "Standard design elements"%string ].

Definition schemes : list (string * list (string * string)) :=
  [ ("Single Floor House",
     [ ("North", "Light beige with white accents");
       ("South", "Warm gray with cream highlights");
       ("East", "Soft white with light blue accents");
       ("West", "Warm beige with brown accents") ]);
    ("Duplex",
     [ ("North", "Modern gray with white and black accents");
       ("South", "Contemporary white with glass elements");
       ("East", "Light gray with blue glass accents");
       ("West", "Warm gray with wooden elements") ]);
    ("Villa",
     [ ("North", "Luxury white with gold accents");
       ("South", "Elegant beige with stone elements");
       ("East", "Modern white with glass and steel");
       ("West", "Warm stone with wooden elements") ]) ]%string.

Definition get_color_scheme (house_type orientation : string) : string :=
  get (get schemes house_type []) orientation "Neutral color scheme"%string.

Definition get_landscaping_suggestions
  (house_type : string) (land_cents : Z) : list string :=
  if land_cents <=? 5 then
    [ "Small front garden with low-maintenance plants";
      "Paved driveway";
      "Simple lawn area" ]%string
  else if land_cents <=? 10 then
    [ "Medium-sized garden with flowering plants";
      "Stone pathway to entrance";
      "Small water feature";
      "Outdoor seating area" ]%string
  else
    [ "Extensive landscaping with multiple zones";
      "Large water feature or pool";
      "Outdoor entertainment area";
      "Garden lighting";
      "Multiple seating areas" ]%string.

End FrontView.

Import FrontView.

(** ** The fallback advisers: views._basic_advice and the agent *)

Module Advice.

(** One call of the hosted model: the text of the response ([None] where it
    has none), or the text of the exception it raised. *)
Inductive generation : Type :=
| Text (t : option string)
| Failed (error : string).

Section Adviser.

(** [str.lower] and [str.strip] are the interpreter's; the advisers are
    modelled for any such functions.  A text is its UTF-8 bytes, among
    which an ASCII keyword occurs exactly where it occurs in the text. *)
Variables lower strip : string -> string.

(** [query or ''] *)
Definition or_empty (query : option string) : string :=
  match query with
  | Some q => q
  | None => EmptyString
  end.

Definition _basic_advice (query : option string) : string :=
  let q := lower (or_empty query) in
  if existsb (contains q) [ "cost"; "estimation"; "price" ]%string then
    "Rough build cost: ₹1,200–2,000 per sq ft depending on materials and location."%string
  else if contains q "orientation"%string || contains q "facing"%string then
    "North/East facing maximize daylight; add shading for West, buffer spaces for South."%string
  else if contains q "room"%string || contains q "size"%string then
    "Good sizes: Master 12x14 ft, Bedroom 10x12 ft, Living 16x20 ft, Kitchen 10x12 ft."%string
  else if contains q "budget"%string then
    "Allocate ~60% construction, 20% materials, 15% labor, 5% permits; keep 10% buffer."%string
  else
    "I can help with costs, sizes, orientation, and materials. Ask a specific question."%string.

Definition _fallback_answer (question : option string) : string :=
  let q := lower (or_empty question) in
  if existsb (contains q) [ "cost"; "price"; "estimat" ]%string then
    "Typical build cost ranges ₹1,200–2,000/sq ft based on materials and finish."%string
  else if contains q "orientation"%string || contains q "facing"%string then
    "Prefer East/North facing for light; shade West walls and buffer harsh South sun."%string
  else if contains q "size"%string || contains q "room"%string then
    "Good sizes: Master 12×14 ft, Bedroom 10×12 ft, Living 16×20 ft, Kitchen 10×12 ft."%string
  else if contains q "budget"%string then
    "Allocate ~60% build, 20% materials, 15% labour, 5% approvals; keep 10% buffer."%string
  else
    "I can help with costs, sizes, orientation and materials. Ask a specific question."%string.

(** [self.model]: [None], or the outcome of its i-th [generate_content]
    call on the prompt built from the context and the question. *)
Variable model : option (nat -> generation).

(** The [for _ in range(2)] loop of [ask_ai], [n] calls left, the next one
    being call [i]. *)
Fixpoint attempts (generate_content : nat -> generation)
  (question : option string) (n i : nat) (last_error : string) : string :=
  match n with
  | O =>
      ("AI unavailable: " ++ last_error ++ ". " ++ _fallback_answer question)%string
  | S n' =>
      match generate_content i with
      | Text t =>
          let text := strip (or_empty t) in
          if String.eqb text EmptyString then _fallback_answer question else text
      | Failed e => attempts generate_content question n' (S i) e
      end
  end.

(** [question] is [None] where the argument is not a string. *)
Definition ask_ai (question : option string) (context : string) : string :=
  match question with
  | None => "Please ask a clear question about your house plan."%string
  | Some q =>
      if String.eqb q EmptyString then "Please ask a clear question about your house plan."%string
      else
        match model with
        | None => _fallback_answer question
        | Some generate_content => attempts generate_content question 2 0 "None"%string
        end
  end.

End Adviser.

End Advice.

Import Advice.

(** ** Land areas that are floats *)

Module Numbers.

(** A Python number passed as [land_cents]: an [int] or a [float]. *)
Inductive number : Type :=
| Int (z : Z)
| Float (x : float).

(** [n * y] for a number [n] and a float [y]; the product of two floats
    never raises. *)
Definition number_mul (n : number) (y : float) : result float :=
  match n with
  | Int z => int_mul z y
  | Float x => Ok (mul x y)
  end.

(** [calculate_room_config] on any number: on an [int] it is the function
    above, on a [float] the same body with the float product. *)
Definition calculate_room_config_of (land_cents : number) : result room_config :=
  match land_cents with
  | Int z => calculate_room_config z
  | Float x =>
      sqft <- Ok (mul x c435_6) ;;
      Ok (room_config_of_sqft sqft)
  end.

(** The land areas 2.295684113865932 and 4.591368227731864, whose products
    with 435.6 are the doubles 1000.0 and 2000.0. *)
Definition area_for_1000 : float := S754_finite false 5169421059883489 (-51).
Definition area_for_2000 : float := S754_finite false 5169421059883489 (-50).

End Numbers.

Import Numbers.

(** ** planner/views.py: the fallback reports *)

Module Fallback.

(** The three report texts written by the fallback path of [result]:
    [Raise] where the path raises before it reaches the report block (in
    [calculate_room_config]), [None] where the block's own exception, that
    of [sqft = int(round(land_cents * 435.6))], is swallowed by its
    [except Exception: pass].  File operations are taken to succeed. *)
Definition fallback_reports
  (land_cents : Z) (orientation fallback_project_id : string)
  : result (option (summary_report * technical_report * cost_report)) :=
  let house_type := get_house_type land_cents in
  room_config <- calculate_room_config land_cents ;;
  Ok (match result_sqft land_cents with
      | Ok sqft =>
          Some (summary_content house_type fallback_project_id orientation sqft,
                technical_content house_type sqft,
                cost_content house_type sqft)
      | Raise _ => None
      end).

End Fallback.

Import Fallback.

(** * Properties *)

(** ** Binary digits *)

Section Digits.

Lemma digits2_pos_size (p : positive) : digits2_pos p = Pos.size p.
Proof. induction p; simpl; congruence. Qed.

Lemma Zdigits2_digits (p : positive) : Zdigits2 (Z.pos p) = digits (Z.pos p).
Proof.
  unfold digits, Zdigits2. rewrite digits2_pos_size.
  destruct p; simpl; lia.
Qed.

Lemma digits_bounds (X : Z) :
  0 < X -> 2 ^ (digits X - 1) <= X < 2 ^ digits X.
Proof.
  intros HX. unfold digits.
  replace (Z.log2 X + 1 - 1) with (Z.log2 X) by lia.
  replace (Z.log2 X + 1) with (Z.succ (Z.log2 X)) by lia.
  apply Z.log2_spec; assumption.
Qed.

Lemma digits_unique (X d : Z) :
  0 < d -> 2 ^ (d - 1) <= X < 2 ^ d -> digits X = d.
Proof.
  intros Hd HX. unfold digits.
  rewrite (Z.log2_unique X (d - 1)); try lia.
  replace (Z.succ (d - 1)) with d by lia. exact HX.
Qed.

Lemma digits_pos (X : Z) : 0 < digits X.
Proof. unfold digits. pose proof (Z.log2_nonneg X). lia. Qed.

Lemma digits_mono (X Y : Z) : X <= Y -> digits X <= digits Y.
Proof. intros H. unfold digits. pose proof (Z.log2_le_mono X Y H). lia. Qed.

Lemma digits_shift (X j : Z) :
  0 < X -> 0 <= j -> digits (X * 2 ^ j) = digits X + j.
Proof.
  intros HX Hj. unfold digits.
  rewrite Z.log2_mul_pow2 by lia. lia.
Qed.

End Digits.

(** ** One-bit shifts and the rounding of [binary_round_aux] *)

Section Shifts.

Lemma iter_pos_nat {A : Type} (f : A -> A) (p : positive) (x : A) :
  iter_pos f p x = Nat.iter (Pos.to_nat p) f x.
Proof.
  revert x. induction p as [p IH | p IH | ]; intros x; cbn [iter_pos].
  - rewrite !IH, Pos2Nat.inj_xI.
    replace (S (2 * Pos.to_nat p)) with (Pos.to_nat p + (Pos.to_nat p + 1))%nat by lia.
    rewrite !Nat.iter_add. simpl. reflexivity.
  - rewrite !IH, Pos2Nat.inj_xO.
    replace (2 * Pos.to_nat p)%nat with (Pos.to_nat p + Pos.to_nat p)%nat by lia.
    rewrite Nat.iter_add. reflexivity.
  - reflexivity.
Qed.

Lemma shr_1_nonneg (m : Z) (r s : bool) :
  0 <= m ->
  shr_1 (Build_shr_record m r s) = Build_shr_record (m / 2) (Z.odd m) (r || s).
Proof.
  intros Hm. destruct m as [ | p | p ]; try lia.
  - reflexivity.
  - destruct p as [p | p | ]; simpl shr_1; f_equal.
    + rewrite Pos2Z.inj_xI. symmetry.
      replace (2 * Z.pos p + 1) with (1 + Z.pos p * 2) by lia.
      rewrite Z.div_add by lia. reflexivity.
    + rewrite Pos2Z.inj_xO. symmetry.
      replace (2 * Z.pos p) with (Z.pos p * 2) by lia.
      apply Z.div_mul. lia.
Qed.

Lemma shr_inv_0 (N : Z) :
  0 <= N -> shr_inv N 0 (Build_shr_record N false false).
Proof.
  intros HN. unfold shr_inv. simpl.
  rewrite Z.div_1_r, Z.mod_1_r. simpl. repeat split; try lia; congruence.
Qed.

Lemma shr_inv_step (N : Z) (k : nat) (mrs : shr_record) :
  0 <= N -> shr_inv N k mrs -> shr_inv N (S k) (shr_1 mrs).
Proof.
  intros HN. destruct mrs as [m r s]. unfold shr_inv. cbn [shr_m shr_r shr_s].
  intros (Hm & Hq & Hrs & Hk).
  rewrite shr_1_nonneg by assumption. cbn [shr_m shr_r shr_s].
  rewrite Nat2Z.inj_succ, Z.pow_succ_r by lia.
  set (p := 2 ^ Z.of_nat k) in *.
  assert (Hp : 0 < p) by (apply Z.pow_pos_nonneg; lia).
  assert (Hmod : N mod (2 * p) = N mod p + p * (m mod 2)).
  { rewrite Z.mul_comm, Z.rem_mul_r by lia. rewrite Hq. reflexivity. }
  pose proof (Z.mod_pos_bound N p Hp) as Hb.
  pose proof (Z.mod_pos_bound m 2 ltac:(lia)) as Hb2.
  assert (Hodd : Z.odd m = (m mod 2 =? 1)).
  { rewrite Zmod_odd. destruct (Z.odd m); reflexivity. }
  split; [ apply Z.div_pos; lia | ].
  split; [ rewrite Hq, Z.div_div by lia; f_equal; lia | ].
  assert (Hs' : r || s = negb (N mod p =? 0)) by exact Hrs.
  rewrite Hmod, Hodd, Hs'.
  assert (Hbit : m mod 2 = 0 \/ m mod 2 = 1) by lia.
  split; [ | intros _; split ]; destruct Hbit as [Hbit | Hbit]; rewrite Hbit;
    rewrite ?Z.mul_0_r, ?Z.mul_1_r, ?Z.add_0_r.
  - reflexivity.
  - destruct (Z.eqb_spec (N mod p) 0), (Z.eqb_spec (N mod p + p) 0);
      simpl; try reflexivity; lia.
  - destruct (Z.leb_spec (2 * p) (2 * (N mod p))); simpl; try reflexivity; lia.
  - destruct (Z.leb_spec (2 * p) (2 * (N mod p + p))); simpl; try reflexivity; lia.
  - destruct (Z.eqb_spec (N mod p) 0), (Z.eqb_spec (2 * (N mod p)) (2 * p));
      simpl; try reflexivity; lia.
  - destruct (Z.eqb_spec (N mod p) 0), (Z.eqb_spec (N mod p + p) 0),
      (Z.eqb_spec (2 * (N mod p + p)) (2 * p)); simpl; try reflexivity; lia.
Qed.

Lemma shr_inv_iter (N : Z) (k : nat) :
  0 <= N -> shr_inv N k (Nat.iter k shr_1 (Build_shr_record N false false)).
Proof.
  intros HN. induction k as [ | k IH ].
  - apply shr_inv_0; assumption.
  - simpl. apply shr_inv_step; assumption.
Qed.

Lemma round_shr (N : Z) (k : nat) (mrs : shr_record) :
  k <> O -> shr_inv N k mrs ->
  round_nearest_even (shr_m mrs) (loc_of_shr_record mrs)
  = rne_shift N (Z.of_nat k).
Proof.
  intros Hk. destruct mrs as [m r s]. unfold shr_inv. cbn [shr_m shr_r shr_s].
  intros (Hm & Hq & _ & Hrs). destruct (Hrs Hk) as [Hr Hs]. clear Hrs.
  unfold rne_shift. rewrite <- Hq.
  set (p := 2 ^ Z.of_nat k) in *. set (x := N mod p) in *.
  subst r s. unfold loc_of_shr_record, round_nearest_even.
  destruct (Z.compare_spec (2 * x) p) as [He | Hl | Hg].
  - rewrite (proj2 (Z.leb_le p (2 * x))) by lia.
    rewrite (proj2 (Z.eqb_eq (2 * x) p)) by lia.
    rewrite andb_false_r. reflexivity.
  - rewrite (proj2 (Z.leb_gt p (2 * x))) by lia.
    destruct (negb (x =? 0) && negb (2 * x =? p)); reflexivity.
  - rewrite (proj2 (Z.leb_le p (2 * x))) by lia.
    rewrite (proj2 (Z.eqb_neq (2 * x) p)) by lia.
    rewrite (proj2 (Z.eqb_neq x 0)).
    + reflexivity.
    + assert (0 < p) by (apply Z.pow_pos_nonneg; lia). lia.
Qed.

Lemma shr_exact (N E n : Z) :
  0 <= N -> 0 <= n ->
  exists mrs,
    shr (Build_shr_record N false false) E n = (mrs, E + n) /\
    shr_m mrs = N / 2 ^ n /\
    round_nearest_even (shr_m mrs) (loc_of_shr_record mrs)
    = if n =? 0 then N else rne_shift N n.
Proof.
  intros HN Hn. destruct n as [ | p | p ]; try lia.
  - exists (Build_shr_record N false false). simpl.
    rewrite Z.add_0_r, Z.div_1_r. auto.
  - exists (iter_pos shr_1 p (Build_shr_record N false false)).
    unfold shr. split; [ reflexivity | ].
    rewrite iter_pos_nat.
    pose proof (shr_inv_iter N (Pos.to_nat p) HN) as Hinv.
    assert (Hp : Z.of_nat (Pos.to_nat p) = Z.pos p) by apply positive_nat_Z.
    split.
    + destruct Hinv as (_ & Hq & _). rewrite Hq, Hp. reflexivity.
    + rewrite (round_shr N (Pos.to_nat p)); [ | lia | exact Hinv ].
      rewrite Hp. reflexivity.
Qed.

End Shifts.

Section RoundAux.

Lemma rne_shift_bounds (X n : Z) :
  0 <= X -> 0 <= n ->
  X / 2 ^ n <= rne_shift X n <= X / 2 ^ n + 1.
Proof.
  intros HX Hn. unfold rne_shift.
  destruct (2 * (X mod 2 ^ n) ?= 2 ^ n); [ destruct (Z.even _) | | ]; lia.
Qed.

Lemma rnd_m_bounds (N : Z) :
  53 <= digits N -> 0 < N -> 2 ^ 52 <= rnd_m N <= 2 ^ 53.
Proof.
  intros Hd HN. unfold rnd_m.
  pose proof (digits_bounds N HN) as [Hlo Hhi].
  destruct (Z.eqb_spec (digits N - 53) 0) as [E0 | E0].
  - replace (digits N) with 53 in * by lia. simpl in Hlo. lia.
  - set (n := digits N - 53) in *.
    assert (Hn : 0 < n) by lia.
    pose proof (rne_shift_bounds N n ltac:(lia) ltac:(lia)) as Hb.
    assert (Hp : 0 < 2 ^ n) by (apply Z.pow_pos_nonneg; lia).
    assert (H1 : 2 ^ (digits N - 1) = 2 ^ 52 * 2 ^ n).
    { rewrite <- Z.pow_add_r by lia. f_equal. lia. }
    assert (H2 : 2 ^ digits N = 2 ^ 53 * 2 ^ n).
    { rewrite <- Z.pow_add_r by lia. f_equal. lia. }
    assert (2 ^ 52 <= N / 2 ^ n).
    { apply Z.div_le_lower_bound; lia. }
    assert (N / 2 ^ n < 2 ^ 53).
    { apply Z.div_lt_upper_bound; lia. }
    lia.
Qed.

Lemma binary_round_aux_normal (s : bool) (N : positive) (E : Z) :
  53 <= digits (Z.pos N) -> -1074 <= digits (Z.pos N) + E - 53 ->
  binary_round_aux prec emax s (Z.pos N) E loc_Exact
  = pack s (rnd_m (Z.pos N)) (E + (digits (Z.pos N) - 53)).
Proof.
  intros Hd He.
  pose proof (rnd_m_bounds (Z.pos N) Hd ltac:(lia)) as HM.
  unfold binary_round_aux, shr_fexp.
  rewrite Zdigits2_digits.
  unfold fexp, emin, prec, emax. cbn [shr_record_of_loc].
  rewrite Z.max_l by lia.
  replace (digits (Z.pos N) + E - 53 - E) with (digits (Z.pos N) - 53) by lia.
  destruct (shr_exact (Z.pos N) E (digits (Z.pos N) - 53)) as (mrs & Hshr & _ & Hr);
    try lia.
  rewrite Hshr, Hr. fold (rnd_m (Z.pos N)).
  set (M := rnd_m (Z.pos N)) in *. set (e' := E + (digits (Z.pos N) - 53)).
  assert (HMpos : 0 < M) by lia.
  destruct M as [ | Mp | Mp ] eqn:EM; try lia.
  rewrite Zdigits2_digits.
  assert (Hdm : 53 <= digits (Z.pos Mp) <= 54).
  { split.
    - change 53 with (digits (2 ^ 52)). apply digits_mono. lia.
    - change 54 with (digits (2 ^ 53)). apply digits_mono. lia. }
  rewrite Z.max_l by lia.
  replace (digits (Z.pos Mp) + e' - 53 - e') with (digits (Z.pos Mp) - 53) by lia.
  destruct (shr_exact (Z.pos Mp) e' (digits (Z.pos Mp) - 53)) as (mrs2 & Hshr2 & Hm2 & _);
    try lia.
  rewrite Hshr2, Hm2. unfold pack. reflexivity.
Qed.

End RoundAux.

(** ** Rounding on exact values *)

Section ValueRounding.

Lemma rne_shift_mono (X Y n : Z) :
  0 <= X <= Y -> 0 <= n -> rne_shift X n <= rne_shift Y n.
Proof.
  intros HXY Hn.
  assert (Hp : 0 < 2 ^ n) by (apply Z.pow_pos_nonneg; lia).
  pose proof (Z.div_le_mono X Y (2 ^ n) Hp ltac:(lia)) as Hq.
  destruct (Z.eq_dec (X / 2 ^ n) (Y / 2 ^ n)) as [Heq | Hne].
  - assert (Hr : X mod 2 ^ n <= Y mod 2 ^ n).
    { rewrite (Z.mod_eq X), (Z.mod_eq Y), Heq by lia. lia. }
    unfold rne_shift. rewrite Heq.
    destruct (Z.compare_spec (2 * (X mod 2 ^ n)) (2 ^ n)),
      (Z.compare_spec (2 * (Y mod 2 ^ n)) (2 ^ n));
      try destruct (Z.even _); lia.
  - pose proof (rne_shift_bounds X n ltac:(lia) Hn).
    pose proof (rne_shift_bounds Y n ltac:(lia) Hn). lia.
Qed.

Lemma rnd53_rnd_m (N : Z) :
  53 <= digits N -> rnd53 N = rnd_m N * 2 ^ (digits N - 53).
Proof.
  intros Hd. unfold rnd53, rnd_m.
  destruct (Z.eqb_spec (digits N - 53) 0) as [E0 | E0].
  - rewrite E0. simpl. lia.
  - rewrite (proj2 (Z.leb_gt _ _)) by lia. reflexivity.
Qed.

Lemma rnd53_small (X : Z) : digits X <= 53 -> rnd53 X = X.
Proof.
  intros Hd. unfold rnd53. rewrite (proj2 (Z.leb_le _ _)) by lia. reflexivity.
Qed.

(** A rounded value stays between the powers of two around its argument. *)
Lemma rnd53_bounds (X : Z) :
  0 < X -> 2 ^ (digits X - 1) <= rnd53 X <= 2 ^ digits X.
Proof.
  intros HX. pose proof (digits_bounds X HX) as [Hlo Hhi].
  destruct (Z_le_gt_dec (digits X) 53) as [Hs | Hb].
  - rewrite rnd53_small by assumption. lia.
  - rewrite rnd53_rnd_m by lia.
    pose proof (rnd_m_bounds X ltac:(lia) HX) as HM.
    set (n := digits X - 53) in *.
    assert (Hp : 0 < 2 ^ n) by (apply Z.pow_pos_nonneg; lia).
    assert (H1 : 2 ^ (digits X - 1) = 2 ^ 52 * 2 ^ n).
    { rewrite <- Z.pow_add_r by lia. f_equal. lia. }
    assert (H2 : 2 ^ digits X = 2 ^ 53 * 2 ^ n).
    { rewrite <- Z.pow_add_r by lia. f_equal. lia. }
    rewrite H1, H2. split; apply Z.mul_le_mono_nonneg_r; lia.
Qed.

Lemma rnd53_0 : rnd53 0 = 0.
Proof. reflexivity. Qed.

Lemma rnd53_nonneg (X : Z) : 0 <= X -> 0 <= rnd53 X.
Proof.
  intros HX. destruct (Z.eq_dec X 0) as [-> | Hne].
  - rewrite rnd53_0. lia.
  - pose proof (rnd53_bounds X ltac:(lia)) as [Hlo _].
    assert (0 < 2 ^ (digits X - 1)).
    { apply Z.pow_pos_nonneg; [ lia | pose proof (digits_pos X); lia ]. }
    lia.
Qed.

Theorem rnd53_mono (X Y : Z) : 0 <= X <= Y -> rnd53 X <= rnd53 Y.
Proof.
  intros [HX HXY].
  destruct (Z.eq_dec X 0) as [-> | Hne].
  { rewrite rnd53_0. apply rnd53_nonneg. lia. }
  assert (HX0 : 0 < X) by lia. assert (HY0 : 0 < Y) by lia.
  pose proof (digits_mono X Y HXY) as Hd.
  destruct (Z.eq_dec (digits X) (digits Y)) as [Heq | Hlt].
  - unfold rnd53. rewrite <- Heq.
    destruct (Z.leb_spec (digits X - 53) 0) as [Hs | Hb]; [ lia | ].
    apply Z.mul_le_mono_nonneg_r.
    + apply Z.pow_nonneg. lia.
    + apply rne_shift_mono; lia.
  - pose proof (rnd53_bounds X HX0) as [_ Hhi].
    pose proof (rnd53_bounds Y HY0) as [Hlo _].
    assert (2 ^ digits X <= 2 ^ (digits Y - 1)).
    { apply Z.pow_le_mono_r; lia. }
    lia.
Qed.

Lemma rne_shift_exact (q n : Z) :
  0 <= n -> rne_shift (q * 2 ^ n) n = q.
Proof.
  intros Hn. unfold rne_shift.
  assert (Hp : 0 < 2 ^ n) by (apply Z.pow_pos_nonneg; lia).
  rewrite Z.div_mul, Z.mod_mul by lia.
  destruct (Z.compare_spec (2 * 0) (2 ^ n)); lia.
Qed.

Lemma rne_shift_scale (X n j : Z) :
  0 <= n -> 0 <= j -> rne_shift (X * 2 ^ j) (n + j) = rne_shift X n.
Proof.
  intros Hn Hj. unfold rne_shift.
  assert (Hp : 0 < 2 ^ n) by (apply Z.pow_pos_nonneg; lia).
  assert (Hq : 0 < 2 ^ j) by (apply Z.pow_pos_nonneg; lia).
  rewrite Z.pow_add_r by lia.
  rewrite Z.div_mul_cancel_r by lia.
  rewrite Z.mul_mod_distr_r by lia.
  replace (2 * (X mod 2 ^ n * 2 ^ j)) with (2 * (X mod 2 ^ n) * 2 ^ j) by lia.
  assert (Hc : (2 * (X mod 2 ^ n) * 2 ^ j ?= 2 ^ n * 2 ^ j)
               = (2 * (X mod 2 ^ n) ?= 2 ^ n)).
  { destruct (Z.compare_spec (2 * (X mod 2 ^ n)) (2 ^ n)) as [He | Hl | Hg].
    - rewrite He. apply Z.compare_refl.
    - apply Z.compare_lt_iff. nia.
    - apply Z.compare_gt_iff. nia. }
  rewrite Hc. reflexivity.
Qed.

(** Rounding commutes with a scaling by a power of two. *)
Theorem rnd53_scale (X j : Z) :
  0 < X -> 0 <= j -> rnd53 (X * 2 ^ j) = rnd53 X * 2 ^ j.
Proof.
  intros HX Hj. unfold rnd53. rewrite digits_shift by lia.
  destruct (Z.leb_spec (digits X - 53) 0) as [Hs | Hb].
  - destruct (Z.leb_spec (digits X + j - 53) 0) as [Hs' | Hb']; [ reflexivity | ].
    set (n := digits X + j - 53) in *.
    replace (X * 2 ^ j) with (X * 2 ^ (j - n) * 2 ^ n).
    + rewrite rne_shift_exact by lia. reflexivity.
    + rewrite <- Z.mul_assoc, <- Z.pow_add_r by lia. do 2 f_equal. lia.
  - rewrite (proj2 (Z.leb_gt _ _)) by lia.
    replace (digits X + j - 53) with (digits X - 53 + j) by lia.
    rewrite rne_shift_scale by lia.
    rewrite Z.pow_add_r by lia. lia.
Qed.

End ValueRounding.

Section Packing.

Lemma pow2_split (a b : Z) : 0 <= a -> 0 <= b -> 2 ^ (a + b) = 2 ^ a * 2 ^ b.
Proof. intros. apply Z.pow_add_r; assumption. Qed.

Lemma pack_cases (s : bool) (M e : Z) :
  2 ^ 52 <= M <= 2 ^ 53 ->
  (exists m e2,
      pack s M e = S754_finite s m e2 /\
      2 ^ 52 <= Z.pos m < 2 ^ 53 /\ e <= e2 <= 971 /\
      Z.pos m * 2 ^ (e2 - e) = M)
  \/ (pack s M e = S754_infinity s /\ 2 ^ 53 <= M * 2 ^ (e - 971) /\ 971 <= e).
Proof.
  intros HM. unfold pack.
  destruct (Z.eq_dec M (2 ^ 53)) as [-> | Hne].
  - change (digits (2 ^ 53) - 53) with 1.
    change (2 ^ 53 / 2 ^ 1) with (Z.pos (Z.to_pos (2 ^ 52))).
    destruct (Z.leb_spec (e + 1) 971) as [Hle | Hgt].
    + left. exists (Z.to_pos (2 ^ 52)), (e + 1).
      split; [ reflexivity | ].
      replace (e + 1 - e) with 1 by lia.
      split; [ | split ]; [ | lia | reflexivity ].
      split; [ apply Z.le_refl | reflexivity ].
    + right. split; [ reflexivity | ]. split; [ | lia ].
      assert (1 <= 2 ^ (e - 971)).
      { change 1 with (2 ^ 0). apply Z.pow_le_mono_r; lia. }
      lia.
  - assert (Hd : digits M = 53) by (apply digits_unique; simpl; lia).
    rewrite Hd. change (2 ^ (53 - 53)) with 1. rewrite Z.div_1_r.
    destruct M as [ | m | m ]; try lia.
    replace (e + (53 - 53)) with e by lia.
    destruct (Z.leb_spec e 971) as [Hle | Hgt].
    + left. exists m, e. split; [ reflexivity | ].
      replace (e - e) with 0 by lia. simpl (2 ^ 0). lia.
    + right. split; [ reflexivity | ]. split; [ | lia ].
      assert (2 <= 2 ^ (e - 971)).
      { change 2 with (2 ^ 1) at 1. apply Z.pow_le_mono_r; lia. }
      nia.
Qed.

End Packing.

Section Conversion.

Lemma shl_align_spec (p : positive) (e e' : Z) :
  e' < e ->
  shl_align p e e' = (Z.to_pos (Z.pos p * 2 ^ (e - e')), e').
Proof.
  intros H. unfold shl_align.
  destruct (e' - e) as [ | d | d ] eqn:Ed; try lia.
  f_equal. replace (e - e') with (Z.pos d) by lia.
  fold (shift_pos d p).
  apply Pos2Z.inj. rewrite shift_pos_correct, Z.pow_pos_fold.
  rewrite Z2Pos.id; [ lia | ].
  assert (0 < 2 ^ Z.pos d) by (apply Z.pow_pos_nonneg; lia). lia.
Qed.

End Conversion.

Section PackValue.

Lemma pack_value (s : bool) (M e K : Z) :
  2 ^ 52 <= M <= 2 ^ 53 -> 0 <= e + K -> 0 <= 971 + K ->
  (exists m e2,
      pack s M e = S754_finite s m e2 /\
      2 ^ 52 <= Z.pos m < 2 ^ 53 /\ e <= e2 <= 971 /\
      Z.pos m * 2 ^ (e2 + K) = M * 2 ^ (e + K) /\
      M * 2 ^ (e + K) < 2 ^ 53 * 2 ^ (971 + K))
  \/ (pack s M e = S754_infinity s /\ 2 ^ 53 * 2 ^ (971 + K) <= M * 2 ^ (e + K)).
Proof.
  intros HM HeK HK.
  destruct (pack_cases s M e HM) as [(m & e2 & Hp & Hm & He2 & Hv) | (Hp & Hv & He)].
  - left. exists m, e2. split; [ exact Hp | ]. split; [ exact Hm | ].
    split; [ exact He2 | ].
    assert (Heq : Z.pos m * 2 ^ (e2 + K) = M * 2 ^ (e + K)).
    { rewrite <- Hv. replace (e2 + K) with ((e2 - e) + (e + K)) by lia.
      rewrite (pow2_split (e2 - e) (e + K)) by lia. ring. }
    split; [ exact Heq | ]. rewrite <- Heq.
    assert (0 < 2 ^ (e2 + K)) by (apply Z.pow_pos_nonneg; lia).
    assert (2 ^ (e2 + K) <= 2 ^ (971 + K)) by (apply Z.pow_le_mono_r; lia).
    nia.
  - right. split; [ exact Hp | ].
    replace (e + K) with ((e - 971) + (971 + K)) by lia.
    rewrite (pow2_split (e - 971) (971 + K)) by lia.
    assert (0 < 2 ^ (971 + K)) by (apply Z.pow_pos_nonneg; lia).
    nia.
Qed.

End PackValue.

Section IntToFloat.

Lemma fexp_normal (d : Z) : -1021 <= d -> fexp prec emax d = d - 53.
Proof. intros H. unfold fexp, emin, prec, emax. lia. Qed.

Lemma binary_round_int (s : bool) (p : positive) :
  (rnd53 (Z.pos p) < 2 ^ 1024 /\
   exists m e,
     binary_round prec emax s p 0 = S754_finite s m e /\
     2 ^ 52 <= Z.pos m < 2 ^ 53 /\ -52 <= e <= 971 /\
     Z.pos m * 2 ^ (e + 52) = rnd53 (Z.pos p) * 2 ^ 52)
  \/ (2 ^ 1024 <= rnd53 (Z.pos p) /\
      binary_round prec emax s p 0 = S754_infinity s).
Proof.
  unfold binary_round.
  replace (Z.pos (digits2_pos p)) with (digits (Z.pos p))
    by (rewrite <- Zdigits2_digits; reflexivity).
  pose proof (digits_pos (Z.pos p)) as Hd0.
  rewrite Z.add_0_r, fexp_normal by lia.
  set (d := digits (Z.pos p)) in *.
  destruct (Z_lt_ge_dec d 53) as [Hlt | Hge].
  - rewrite shl_align_spec by lia.
    set (N := Z.pos p * 2 ^ (0 - (d - 53))).
    assert (HN : 0 < N).
    { unfold N. assert (0 < 2 ^ (0 - (d - 53))) by (apply Z.pow_pos_nonneg; lia). lia. }
    assert (HdN : digits N = 53).
    { unfold N. rewrite digits_shift by lia. fold d. lia. }
    destruct N as [ | n | n ] eqn:EN; try lia.
    change (Z.to_pos (Z.pos n)) with n.
    rewrite binary_round_aux_normal by (rewrite HdN; lia).
    rewrite HdN. unfold rnd_m. rewrite HdN. simpl (53 - 53 =? 0).
    pose proof (digits_bounds (Z.pos n) ltac:(lia)) as Hb. rewrite HdN in Hb.
    destruct (pack_value s (Z.pos n) (d - 53 + (53 - 53)) 52)
      as [(m & e2 & Hp & Hm & He2 & Hv & Hbound) | (Hp & Hv)]; try lia.
    + left. rewrite rnd53_small by (fold d; lia).
      split.
      { pose proof (digits_bounds (Z.pos p) ltac:(lia)) as [_ Hhi]. fold d in Hhi.
        assert (2 ^ d <= 2 ^ 1024) by (apply Z.pow_le_mono_r; lia). lia. }
      exists m, e2. split; [ exact Hp | ]. split; [ exact Hm | ].
      split; [ lia | ]. rewrite Hv, <- EN. unfold N.
      rewrite <- Z.mul_assoc.
      rewrite <- (pow2_split (0 - (d - 53)) (d - 53 + (53 - 53) + 52)) by lia.
      do 2 f_equal. lia.
    + exfalso.
      assert (Z.pos n * 2 ^ (d - 53 + (53 - 53) + 52) < 2 ^ 53 * 2 ^ (971 + 52)).
      { assert (0 < 2 ^ (d - 53 + (53 - 53) + 52)) by (apply Z.pow_pos_nonneg; lia).
        assert (2 ^ (d - 53 + (53 - 53) + 52) <= 2 ^ (971 + 52))
          by (apply Z.pow_le_mono_r; lia).
        change (53 - 1) with 52 in Hb. nia. }
      lia.
  - assert (Hsh : shl_align p 0 (d - 53) = (p, 0)).
    { unfold shl_align. destruct (d - 53 - 0) eqn:Ed; try reflexivity. lia. }
    rewrite Hsh.
    rewrite binary_round_aux_normal by (fold d; lia). fold d.
    pose proof (rnd_m_bounds (Z.pos p) ltac:(fold d; lia) ltac:(lia)) as HM.
    rewrite (rnd53_rnd_m (Z.pos p)) by (fold d; lia). fold d.
    set (M := rnd_m (Z.pos p)) in *.
    destruct (pack_value s M (0 + (d - 53)) 52)
      as [(m & e2 & Hp & Hm & He2 & Hv & Hbound) | (Hp & Hv)]; try lia.
    + left.
      assert (Hval : M * 2 ^ (0 + (d - 53) + 52) = M * 2 ^ (d - 53) * 2 ^ 52).
      { rewrite <- Z.mul_assoc, <- (pow2_split (d - 53) 52) by lia. do 2 f_equal. }
      split.
      { rewrite Hval in Hbound. change (2 ^ 53 * 2 ^ (971 + 52)) with (2 ^ 1024 * 2 ^ 52) in Hbound.
        lia. }
      exists m, e2. split; [ exact Hp | ]. split; [ exact Hm | ].
      split; [ lia | ]. rewrite Hv. exact Hval.
    + right. split; [ | exact Hp ].
      assert (Hval : M * 2 ^ (0 + (d - 53) + 52) = M * 2 ^ (d - 53) * 2 ^ 52).
      { rewrite <- Z.mul_assoc, <- (pow2_split (d - 53) 52) by lia. do 2 f_equal. }
      rewrite Hval in Hv. change (2 ^ 53 * 2 ^ (971 + 52)) with (2 ^ 1024 * 2 ^ 52) in Hv.
      lia.
Qed.

End IntToFloat.

(** ** The product [land_cents * 435.6] *)

Section Product.

Lemma inf_val_eq : inf_val = 2 ^ 53 * 2 ^ (971 + 96).
Proof. reflexivity. Qed.

Lemma mul_c435_6_finite (s : bool) (m1 : positive) (e1 : Z) :
  2 ^ 52 <= Z.pos m1 < 2 ^ 53 -> -52 <= e1 <= 971 ->
  good (mul (S754_finite s m1 e1) c435_6) /\
  val (mul (S754_finite s m1 e1) c435_6)
  = signed s (cap (rnd53 (Z.pos m1 * 2 ^ (e1 + 52) * mc))).
Proof.
  intros Hm He. unfold mul, c435_6, SFmul. rewrite xorb_false_r.
  set (N := (m1 * 7663156240947610)%positive).
  assert (HN : Z.pos N = Z.pos m1 * mc) by (unfold N; rewrite Pos2Z.inj_mul; reflexivity).
  assert (Hlo : 2 ^ 104 <= Z.pos N).
  { rewrite HN. change (2 ^ 104) with (2 ^ 52 * 2 ^ 52).
    apply Z.mul_le_mono_nonneg; unfold mc; lia. }
  assert (Hhi : Z.pos N < 2 ^ 106).
  { rewrite HN. change (2 ^ 106) with (2 ^ 53 * 2 ^ 53). unfold mc. nia. }
  assert (Hd : 105 <= digits (Z.pos N) <= 106).
  { split.
    - change 105 with (digits (2 ^ 104)). apply digits_mono. lia.
    - change 106 with (digits (2 ^ 106 - 1)). apply digits_mono. lia. }
  rewrite binary_round_aux_normal by lia.
  pose proof (rnd_m_bounds (Z.pos N) ltac:(lia) ltac:(lia)) as HM.
  pose proof (rnd53_rnd_m (Z.pos N) ltac:(lia)) as HR.
  set (d := digits (Z.pos N)) in *. set (M := rnd_m (Z.pos N)) in *.
  assert (Hval : M * 2 ^ (e1 + -44 + (d - 53) + 96)
                 = rnd53 (Z.pos m1 * 2 ^ (e1 + 52) * mc)).
  { replace (Z.pos m1 * 2 ^ (e1 + 52) * mc) with (Z.pos N * 2 ^ (e1 + 52))
      by (rewrite HN; ring).
    rewrite rnd53_scale by lia. rewrite HR.
    rewrite <- Z.mul_assoc, <- (pow2_split (d - 53) (e1 + 52)) by lia.
    do 2 f_equal. lia. }
  destruct (pack_value s M (e1 + -44 + (d - 53)) 96)
    as [(m & e2 & Hp & Hm2 & He2 & Hv & Hbound) | (Hp & Hv)]; try lia.
  - rewrite Hp. split.
    + simpl. lia.
    + cbn [val]. rewrite Hv, Hval in *. rewrite <- inf_val_eq in Hbound.
      unfold cap. rewrite Z.min_l by lia. destruct s; reflexivity.
  - rewrite Hp. split.
    + exact I.
    + cbn [val]. rewrite Hval, <- inf_val_eq in Hv.
      unfold cap. rewrite Z.min_r by lia. destruct s; reflexivity.
Qed.

Lemma sqft_mag_0 : sqft_mag 0 = 0.
Proof. reflexivity. Qed.

(** [land_cents * 435.6] for every [int]: an [OverflowError] exactly when
    the integer rounds past the largest double, and otherwise a double whose
    exact value is the doubly rounded product. *)
Theorem int_mul_c435_6_spec (z : Z) :
  (rnd53 (Z.abs z) < 2 ^ 1024 /\
   exists x, int_mul z c435_6 = Ok x /\ good x /\
             val x = Z.sgn z * sqft_mag (Z.abs z))
  \/ (2 ^ 1024 <= rnd53 (Z.abs z) /\ int_mul z c435_6 = Raise OverflowError).
Proof.
  unfold int_mul, of_int, of_Z, binary_normalize.
  destruct z as [ | p | p ].
  - left. split; [ reflexivity | ].
    exists (S754_zero false). repeat split.
  - cbn [Z.abs Z.sgn].
    destruct (binary_round_int false p)
      as [(HR & m & e & Hb & Hm & He & Hv) | (HR & Hb)]; rewrite Hb; cbn [bind].
    + left. split; [ exact HR | ].
      exists (mul (S754_finite false m e) c435_6).
      destruct (mul_c435_6_finite false m e Hm He) as [Hg Hval].
      split; [ reflexivity | ]. split; [ exact Hg | ].
      rewrite Hval, Hv. unfold signed, sqft_mag. lia.
    + right. split; [ exact HR | reflexivity ].
  - cbn [Z.abs Z.sgn].
    destruct (binary_round_int true p)
      as [(HR & m & e & Hb & Hm & He & Hv) | (HR & Hb)]; rewrite Hb; cbn [bind].
    + left. split; [ exact HR | ].
      exists (mul (S754_finite true m e) c435_6).
      destruct (mul_c435_6_finite true m e Hm He) as [Hg Hval].
      split; [ reflexivity | ]. split; [ exact Hg | ].
      rewrite Hval, Hv. unfold signed, sqft_mag. lia.
    + right. split; [ exact HR | reflexivity ].
Qed.

End Product.

(** ** Comparisons and the range of [float] *)

Section Ordering.

Lemma inf_val_pos : 0 < inf_val.
Proof. reflexivity. Qed.

Lemma finite_val_bounds (m : positive) (e : Z) :
  2 ^ 52 <= Z.pos m < 2 ^ 53 -> -96 <= e <= 971 ->
  0 < Z.pos m * 2 ^ (e + 96) < inf_val.
Proof.
  intros Hm He. rewrite inf_val_eq.
  assert (0 < 2 ^ (e + 96)) by (apply Z.pow_pos_nonneg; lia).
  assert (2 ^ (e + 96) <= 2 ^ (971 + 96)) by (apply Z.pow_le_mono_r; lia).
  nia.
Qed.

Lemma finite_compare (m1 m2 : positive) (e1 e2 : Z) :
  2 ^ 52 <= Z.pos m1 < 2 ^ 53 -> -96 <= e1 ->
  2 ^ 52 <= Z.pos m2 < 2 ^ 53 -> -96 <= e2 ->
  match e1 ?= e2 with
  | Lt => Lt
  | Gt => Gt
  | Eq => Pos.compare_cont Eq m1 m2
  end = (Z.pos m1 * 2 ^ (e1 + 96) ?= Z.pos m2 * 2 ^ (e2 + 96)).
Proof.
  intros Hm1 He1 Hm2 He2.
  assert (H1 : 0 < 2 ^ (e1 + 96)) by (apply Z.pow_pos_nonneg; lia).
  assert (H2 : 0 < 2 ^ (e2 + 96)) by (apply Z.pow_pos_nonneg; lia).
  destruct (Z.compare_spec e1 e2) as [Heq | Hlt | Hgt]; symmetry.
  - subst e2. change (Pos.compare_cont Eq m1 m2) with (Z.pos m1 ?= Z.pos m2).
    destruct (Z.compare_spec (Z.pos m1) (Z.pos m2)) as [E | L | G].
    + rewrite E. apply Z.compare_refl.
    + apply Z.compare_lt_iff. nia.
    + apply Z.compare_gt_iff. nia.
  - apply Z.compare_lt_iff.
    replace (e2 + 96) with ((e2 - e1) + (e1 + 96)) by lia.
    rewrite (pow2_split (e2 - e1) (e1 + 96)) by lia.
    assert (2 <= 2 ^ (e2 - e1)).
    { change 2 with (2 ^ 1) at 1. apply Z.pow_le_mono_r; lia. }
    rewrite Z.mul_assoc. apply Z.mul_lt_mono_pos_r; [ lia | nia ].
  - apply Z.compare_gt_iff.
    replace (e1 + 96) with ((e1 - e2) + (e2 + 96)) by lia.
    rewrite (pow2_split (e1 - e2) (e2 + 96)) by lia.
    assert (2 <= 2 ^ (e1 - e2)).
    { change 2 with (2 ^ 1) at 1. apply Z.pow_le_mono_r; lia. }
    rewrite Z.mul_assoc. apply Z.mul_lt_mono_pos_r; [ lia | nia ].
Qed.

(** On the doubles met here [SFcompare] is the order of the exact values. *)
Theorem compare_good (x y : float) :
  good x -> good y -> SFcompare x y = Some (val x ?= val y).
Proof.
  pose proof inf_val_pos as Hinf.
  destruct x as [sx | sx | | sx mx ex], y as [sy | sy | | sy my ey];
    cbn [good]; intros Hx Hy; try contradiction; cbn [SFcompare val].
  - reflexivity.
  - f_equal. destruct sy; symmetry;
      [ apply Z.compare_gt_iff | apply Z.compare_lt_iff ]; lia.
  - destruct Hy as [Hm He]. pose proof (finite_val_bounds my ey Hm He).
    f_equal. destruct sy; symmetry;
      [ apply Z.compare_gt_iff | apply Z.compare_lt_iff ]; lia.
  - f_equal. destruct sx; symmetry;
      [ apply Z.compare_lt_iff | apply Z.compare_gt_iff ]; lia.
  - f_equal. destruct sx, sy; symmetry;
      try apply Z.compare_refl;
      [ apply Z.compare_lt_iff | apply Z.compare_gt_iff ]; lia.
  - destruct Hy as [Hm He]. pose proof (finite_val_bounds my ey Hm He).
    f_equal. destruct sx, sy; symmetry;
      try (apply Z.compare_lt_iff; lia); apply Z.compare_gt_iff; lia.
  - destruct Hx as [Hm He]. pose proof (finite_val_bounds mx ex Hm He).
    f_equal. destruct sx; symmetry;
      [ apply Z.compare_lt_iff | apply Z.compare_gt_iff ]; lia.
  - destruct Hx as [Hm He]. pose proof (finite_val_bounds mx ex Hm He).
    f_equal. destruct sx, sy; symmetry;
      try (apply Z.compare_lt_iff; lia); apply Z.compare_gt_iff; lia.
  - destruct Hx as [Hmx Hex], Hy as [Hmy Hey].
    pose proof (finite_val_bounds mx ex Hmx Hex).
    pose proof (finite_val_bounds my ey Hmy Hey).
    pose proof (finite_compare mx my ex ey Hmx ltac:(lia) Hmy ltac:(lia)) as Hc.
    f_equal. destruct sx, sy.
    + rewrite Z.compare_opp, (Z.compare_antisym (Z.pos mx * 2 ^ (ex + 96))).
      rewrite <- Hc. destruct (ex ?= ey); reflexivity.
    + symmetry. apply Z.compare_lt_iff. lia.
    + symmetry. apply Z.compare_gt_iff. lia.
    + exact Hc.
Qed.

Lemma SFleb_good (x y : float) :
  good x -> good y -> SFleb x y = (val x <=? val y).
Proof.
  intros Hx Hy. unfold SFleb. rewrite compare_good by assumption.
  unfold Z.leb. destruct (val x ?= val y); reflexivity.
Qed.

Lemma SFltb_good (x y : float) :
  good x -> good y -> SFltb x y = (val x <? val y).
Proof.
  intros Hx Hy. unfold SFltb. rewrite compare_good by assumption.
  unfold Z.ltb. destruct (val x ?= val y); reflexivity.
Qed.

End Ordering.

Section Magnitude.

Lemma cap_mono (X Y : Z) : X <= Y -> cap X <= cap Y.
Proof. unfold cap. lia. Qed.

Lemma mc_pos : 0 < mc.
Proof. reflexivity. Qed.

Theorem sqft_mag_mono (a b : Z) : 0 <= a <= b -> sqft_mag a <= sqft_mag b.
Proof.
  intros Hab. unfold sqft_mag. apply cap_mono, rnd53_mono.
  pose proof (rnd53_mono a b Hab) as H1.
  pose proof (rnd53_nonneg a ltac:(lia)) as H0.
  pose proof mc_pos. split.
  - apply Z.mul_nonneg_nonneg; [ apply Z.mul_nonneg_nonneg | ]; lia.
  - apply Z.mul_le_mono_nonneg_r; [ lia | ].
    apply Z.mul_le_mono_nonneg_r; lia.
Qed.

Lemma sqft_mag_nonneg (a : Z) : 0 <= a -> 0 <= sqft_mag a.
Proof.
  intros Ha. rewrite <- sqft_mag_0. apply sqft_mag_mono. lia.
Qed.

Lemma rnd53_max_int : rnd53 max_int < 2 ^ 1024.
Proof. vm_compute. reflexivity. Qed.

Lemma rnd53_past_max_int : 2 ^ 1024 <= rnd53 (max_int + 1).
Proof. vm_compute. discriminate. Qed.

Lemma in_range_rnd53 (z : Z) : in_range z <-> rnd53 (Z.abs z) < 2 ^ 1024.
Proof.
  unfold in_range. split.
  - intros H. apply Z.le_lt_trans with (rnd53 max_int).
    + apply rnd53_mono. lia.
    + exact rnd53_max_int.
  - intros H.
    destruct (Z_le_gt_dec (Z.abs z) max_int) as [Hle | Hgt]; [ lia | ].
    exfalso. pose proof rnd53_past_max_int as Hp.
    assert (rnd53 (max_int + 1) <= rnd53 (Z.abs z)).
    { apply rnd53_mono. unfold max_int in *. lia. }
    lia.
Qed.

End Magnitude.

(** ** The sizing thresholds on integers *)

Section Thresholds.

Lemma int_mul_in_range (z : Z) :
  in_range z ->
  exists x, int_mul z c435_6 = Ok x /\ good x /\ val x = sqft_val z.
Proof.
  intros Hr. apply in_range_rnd53 in Hr.
  destruct (int_mul_c435_6_spec z) as [(_ & x & Hx) | (Hbig & _)].
  - exists x. exact Hx.
  - lia.
Qed.

Lemma int_mul_out_of_range (z : Z) :
  ~ in_range z -> int_mul z c435_6 = Raise OverflowError.
Proof.
  intros Hr. rewrite in_range_rnd53 in Hr.
  destruct (int_mul_c435_6_spec z) as [(Hsmall & _) | (_ & Hraise)].
  - contradiction.
  - exact Hraise.
Qed.

Lemma int_mul_ok_inv (z : Z) (x : float) :
  int_mul z c435_6 = Ok x -> in_range z /\ good x /\ val x = sqft_val z.
Proof.
  intros Hx.
  destruct (int_mul_c435_6_spec z) as [(Hs & y & Hy & Hg & Hv) | (_ & Hraise)].
  - rewrite Hy in Hx. injection Hx as <-.
    split; [ apply in_range_rnd53; exact Hs | ]. split; assumption.
  - rewrite Hraise in Hx. discriminate.
Qed.

Lemma sqft_val_mono (a b : Z) : a <= b -> sqft_val a <= sqft_val b.
Proof.
  intros Hab. unfold sqft_val.
  pose proof (sqft_mag_nonneg (Z.abs a) ltac:(lia)) as Ha.
  pose proof (sqft_mag_nonneg (Z.abs b) ltac:(lia)) as Hb.
  destruct (Z.sgn_spec a) as [(Ha0 & ->) | [(Ha0 & ->) | (Ha0 & ->)]],
    (Z.sgn_spec b) as [(Hb0 & ->) | [(Hb0 & ->) | (Hb0 & ->)]]; try lia.
  - pose proof (sqft_mag_mono (Z.abs a) (Z.abs b) ltac:(lia)). lia.
  - pose proof (sqft_mag_mono (Z.abs b) (Z.abs a) ltac:(lia)). lia.
Qed.

Lemma good_of_Z_1000 : good (of_Z 1000).
Proof. change (of_Z 1000) with (S754_finite false 8796093022208000 (-43)). cbn [good]. lia. Qed.

Lemma good_of_Z_2000 : good (of_Z 2000).
Proof. change (of_Z 2000) with (S754_finite false 8796093022208000 (-42)). cbn [good]. lia. Qed.

Lemma le_int_1000 (x : float) :
  good x -> le_int x 1000 = (val x <=? 1000 * 2 ^ 96).
Proof. intros Hx. unfold le_int. rewrite SFleb_good by (assumption || apply good_of_Z_1000). reflexivity. Qed.

Lemma le_int_2000 (x : float) :
  good x -> le_int x 2000 = (val x <=? 2000 * 2 ^ 96).
Proof. intros Hx. unfold le_int. rewrite SFleb_good by (assumption || apply good_of_Z_2000). reflexivity. Qed.

Lemma int_lt_2000 (x : float) :
  good x -> int_lt 2000 x = (2000 * 2 ^ 96 <? val x).
Proof. intros Hx. unfold int_lt. rewrite SFltb_good by (assumption || apply good_of_Z_2000). reflexivity. Qed.

Lemma sqft_val_2 : sqft_val 2 <= 1000 * 2 ^ 96.
Proof. vm_compute. discriminate. Qed.

Lemma sqft_val_3 : 1000 * 2 ^ 96 < sqft_val 3.
Proof. vm_compute. reflexivity. Qed.

Lemma sqft_val_4 : sqft_val 4 <= 2000 * 2 ^ 96.
Proof. vm_compute. discriminate. Qed.

Lemma sqft_val_5 : 2000 * 2 ^ 96 < sqft_val 5.
Proof. vm_compute. reflexivity. Qed.

(** On integers the two thresholds on [sqft] fall between 2 and 3 cents and
    between 4 and 5 cents. *)
Lemma sqft_thresholds (z : Z) (x : float) :
  int_mul z c435_6 = Ok x ->
  le_int x 1000 = (z <=? 2) /\ le_int x 2000 = (z <=? 4).
Proof.
  intros Hx. destruct (int_mul_ok_inv z x Hx) as (_ & Hg & Hv).
  rewrite le_int_1000, le_int_2000, Hv by assumption.
  pose proof sqft_val_2. pose proof sqft_val_3.
  pose proof sqft_val_4. pose proof sqft_val_5.
  split.
  - destruct (Z.leb_spec z 2) as [Hz | Hz].
    + apply Z.leb_le. pose proof (sqft_val_mono z 2 Hz). lia.
    + apply Z.leb_gt. pose proof (sqft_val_mono 3 z ltac:(lia)). lia.
  - destruct (Z.leb_spec z 4) as [Hz | Hz].
    + apply Z.leb_le. pose proof (sqft_val_mono z 4 Hz). lia.
    + apply Z.leb_gt. pose proof (sqft_val_mono 5 z ltac:(lia)). lia.
Qed.

End Thresholds.

(** ** planner/logic/floor_plan.py and blender_3d.py: the claims *)

Section RoomConfig.

Lemma calculate_room_config_ok (z : Z) (x : float) :
  int_mul z c435_6 = Ok x ->
  calculate_room_config z = Ok (room_config_of_sqft x).
Proof. intros Hx. unfold calculate_room_config. rewrite Hx. reflexivity. Qed.

Lemma calculate_room_config_inv (z : Z) (r : room_config) :
  calculate_room_config z = Ok r ->
  exists x, int_mul z c435_6 = Ok x /\ r = room_config_of_sqft x.
Proof.
  unfold calculate_room_config. destruct (int_mul z c435_6) as [x | e]; cbn [bind].
  - intros H. injection H as <-. exists x. split; reflexivity.
  - discriminate.
Qed.

Lemma calculate_room_config_overflow (z : Z) :
  ~ in_range z -> calculate_room_config z = Raise OverflowError.
Proof.
  intros Hr. unfold calculate_room_config.
  rewrite int_mul_out_of_range by assumption. reflexivity.
Qed.

Lemma room_config_of_sqft_tiers (z : Z) (x : float) :
  int_mul z c435_6 = Ok x ->
  room_config_of_sqft x
  = if z <=? 2 then small_config x
    else if z <=? 4 then medium_config x else large_config x.
Proof.
  intros Hx. destruct (sqft_thresholds z x Hx) as [H1 H2].
  unfold room_config_of_sqft. rewrite H1, H2. reflexivity.
Qed.

Lemma gt_is_not_le (x y : float) :
  good x -> good y -> SFltb y x = negb (SFleb x y).
Proof.
  intros Hx Hy. rewrite SFltb_good, SFleb_good by assumption.
  destruct (Z.ltb_spec (val y) (val x)), (Z.leb_spec (val x) (val y)); try reflexivity; lia.
Qed.

End RoomConfig.

(** C1 (as stated): at an integer past the range of [float] no record and no
    pair is returned, the product raises [OverflowError]. *)
Lemma C1_overflow_counterexample :
  calculate_room_config (2 ^ 1024) = Raise OverflowError /\
  ~ (exists r, calculate_room_config (2 ^ 1024) = Ok r) /\
  create_floor_plan false (2 ^ 1024) "Villa" (large_config (S754_infinity false))
  = Raise OverflowError.
Proof.
  assert (H : calculate_room_config (2 ^ 1024) = Raise OverflowError)
    by (vm_compute; reflexivity).
  split; [ exact H | ]. split.
  - intros [r Hr]. rewrite H in Hr. discriminate.
  - vm_compute. reflexivity.
Qed.

(** C1 (amended): for every integer [land_cents] that [float] converts
    (magnitude at most 2^1024 - 2^970 - 1), [calculate_room_config] computes
    [sqft = land_cents * 435.6] and returns the record selected by the
    thresholds [sqft <= 1000], [1000 < sqft <= 2000], [sqft > 2000], and
    [create_floor_plan] returns the pair (30, 35), (40, 50) or (50, 70)
    selected by the same thresholds; on integers the thresholds fall after
    2 and after 4 cents. *)
Theorem C1_sizing_lookup (land_cents : Z) :
  in_range land_cents ->
  exists sqft,
    int_mul land_cents c435_6 = Ok sqft /\
    calculate_room_config land_cents
    = Ok (if le_int sqft 1000 then small_config sqft
          else if le_int sqft 2000 then medium_config sqft
          else large_config sqft) /\
    (forall r,
        calculate_room_config land_cents = Ok r ->
        counts r = if le_int sqft 1000 then (2, 1, 1, 1)
                   else if le_int sqft 2000 then (3, 2, 1, 1)
                   else (4, 3, 2, 2)) /\
    (forall (b : bool) (house_type : string) (rc : room_config),
        create_floor_plan b land_cents house_type rc
        = Ok (if le_int sqft 1000 then (30, 35)
              else if le_int sqft 2000 then (40, 50)
              else (50, 70))) /\
    int_lt 1000 sqft = negb (le_int sqft 1000) /\
    int_lt 2000 sqft = negb (le_int sqft 2000) /\
    le_int sqft 1000 = (land_cents <=? 2) /\
    le_int sqft 2000 = (land_cents <=? 4).
Proof.
  intros Hr. destruct (int_mul_in_range land_cents Hr) as (x & Hx & Hg & _).
  exists x. split; [ exact Hx | ]. split.
  - rewrite (calculate_room_config_ok _ _ Hx). reflexivity.
  - split.
    { intros r Hc. rewrite (calculate_room_config_ok _ _ Hx) in Hc.
      injection Hc as <-. unfold room_config_of_sqft.
      destruct (le_int x 1000); [ reflexivity | ].
      destruct (le_int x 2000); reflexivity. }
    split.
    + intros b house_type rc. unfold create_floor_plan.
      destruct b; cbn [negb]; rewrite Hx; cbn [bind];
        destruct (le_int x 1000); try reflexivity;
        destruct (le_int x 2000); reflexivity.
    + split; [ apply gt_is_not_le; [ exact Hg | apply good_of_Z_1000 ] | ].
      split; [ apply gt_is_not_le; [ exact Hg | apply good_of_Z_2000 ] | ].
      apply sqft_thresholds. exact Hx.
Qed.

Lemma C1_sizing_lookup_witness :
  in_range 3 /\
  exists sqft,
    int_mul 3 c435_6 = Ok sqft /\
    calculate_room_config 3
    = Ok (if le_int sqft 1000 then small_config sqft
          else if le_int sqft 2000 then medium_config sqft
          else large_config sqft) /\
    (forall r,
        calculate_room_config 3 = Ok r ->
        counts r = if le_int sqft 1000 then (2, 1, 1, 1)
                   else if le_int sqft 2000 then (3, 2, 1, 1)
                   else (4, 3, 2, 2)) /\
    (forall (b : bool) (house_type : string) (rc : room_config),
        create_floor_plan b 3 house_type rc
        = Ok (if le_int sqft 1000 then (30, 35)
              else if le_int sqft 2000 then (40, 50)
              else (50, 70))) /\
    int_lt 1000 sqft = negb (le_int sqft 1000) /\
    int_lt 2000 sqft = negb (le_int sqft 2000) /\
    le_int sqft 1000 = (3 <=? 2) /\
    le_int sqft 2000 = (3 <=? 4).
Proof.
  assert (H : in_range 3) by (unfold in_range, max_int; lia).
  split; [ exact H | apply (C1_sizing_lookup 3 H) ].
Defined.

(** C2: for all land areas [A1 <= A2], each numeric room count of
    [calculate_room_config A1] is at most the corresponding count of
    [calculate_room_config A2], and the derived square footage
    [A * 435.6] is non-decreasing in [A]. *)
Theorem C2_monotone_counts_and_sqft (A1 A2 : Z) (r1 r2 : room_config) :
  A1 <= A2 ->
  calculate_room_config A1 = Ok r1 ->
  calculate_room_config A2 = Ok r2 ->
  Bedrooms r1 <= Bedrooms r2 /\
  Bathrooms r1 <= Bathrooms r2 /\
  Kitchen r1 <= Kitchen r2 /\
  Hall r1 <= Hall r2 /\
  exists s1 s2,
    int_mul A1 c435_6 = Ok s1 /\ int_mul A2 c435_6 = Ok s2 /\
    SFleb s1 s2 = true /\ val s1 <= val s2.
Proof.
  intros HA H1 H2.
  destruct (calculate_room_config_inv A1 r1 H1) as (s1 & Hs1 & ->).
  destruct (calculate_room_config_inv A2 r2 H2) as (s2 & Hs2 & ->).
  rewrite (room_config_of_sqft_tiers A1 s1 Hs1), (room_config_of_sqft_tiers A2 s2 Hs2).
  destruct (int_mul_ok_inv A1 s1 Hs1) as (_ & Hg1 & Hv1).
  destruct (int_mul_ok_inv A2 s2 Hs2) as (_ & Hg2 & Hv2).
  assert (Hval : val s1 <= val s2).
  { rewrite Hv1, Hv2. apply sqft_val_mono. exact HA. }
  assert (Hcounts :
    forall (f : room_config -> Z),
      f (small_config s1) <= f (medium_config s1) <= f (large_config s1) ->
      f (small_config s1) = f (small_config s2) ->
      f (medium_config s1) = f (medium_config s2) ->
      f (large_config s1) = f (large_config s2) ->
      f (if A1 <=? 2 then small_config s1
         else if A1 <=? 4 then medium_config s1 else large_config s1)
      <= f (if A2 <=? 2 then small_config s2
            else if A2 <=? 4 then medium_config s2 else large_config s2)).
  { intros f Hord E1 E2 E3.
    destruct (Z.leb_spec A1 2), (Z.leb_spec A1 4), (Z.leb_spec A2 2), (Z.leb_spec A2 4);
      lia. }
  repeat split; try (apply Hcounts; cbn; lia).
  exists s1, s2. split; [ exact Hs1 | ]. split; [ exact Hs2 | ].
  split; [ | exact Hval ].
  rewrite SFleb_good by assumption. apply Z.leb_le. exact Hval.
Qed.

Lemma C2_monotone_counts_and_sqft_witness :
  exists r1 r2,
    2 <= 5 /\
    calculate_room_config 2 = Ok r1 /\
    calculate_room_config 5 = Ok r2 /\
    Bedrooms r1 <= Bedrooms r2 /\
    Bathrooms r1 <= Bathrooms r2 /\
    Kitchen r1 <= Kitchen r2 /\
    Hall r1 <= Hall r2 /\
    exists s1 s2,
      int_mul 2 c435_6 = Ok s1 /\ int_mul 5 c435_6 = Ok s2 /\
      SFleb s1 s2 = true /\ val s1 <= val s2.
Proof.
  eexists. eexists.
  assert (H25 : 2 <= 5) by lia.
  split; [ exact H25 | ].
  split; [ vm_compute; reflexivity | ].
  split; [ vm_compute; reflexivity | ].
  apply (C2_monotone_counts_and_sqft 2 5 _ _ H25); vm_compute; reflexivity.
Defined.

Section SmallTier.

Lemma small_tier_in_range (A : Z) :
  A <= 2 -> - max_int <= A ->
  exists sqft,
    int_mul A c435_6 = Ok sqft /\
    calculate_room_config A = Ok (small_config sqft).
Proof.
  intros HA2 Hlo.
  assert (Hr : in_range A) by (unfold in_range, max_int in *; lia).
  destruct (int_mul_in_range A Hr) as (x & Hx & _).
  exists x. split; [ exact Hx | ].
  rewrite (calculate_room_config_ok _ _ Hx), (room_config_of_sqft_tiers _ _ Hx).
  rewrite (proj2 (Z.leb_le A 2)) by lia. reflexivity.
Qed.

End SmallTier.

(** C3 (as stated): an integer far below zero is at most 1000/435.6, yet
    the product raises instead of giving the smallest tier. *)
Lemma C3_negative_overflow_counterexample :
  - 2 ^ 1024 * 4356 <= 10000 /\
  calculate_room_config (- 2 ^ 1024) = Raise OverflowError.
Proof. split; [ vm_compute; discriminate | vm_compute; reflexivity ]. Qed.

(** C3 (amended): for every integer land area [A <= 1000/435.6] that
    [float] converts ([A >= -(2^1024 - 2^970 - 1)]),
    [calculate_room_config A] returns the 2-bedroom record and
    [get_house_type A] returns "Single Floor House". *)
Theorem C3_smallest_tier (A : Z) :
  A * 4356 <= 10000 -> - max_int <= A ->
  (exists sqft,
      int_mul A c435_6 = Ok sqft /\
      calculate_room_config A = Ok (small_config sqft)) /\
  get_house_type A = "Single Floor House"%string.
Proof.
  intros HA Hlo.
  assert (HA2 : A <= 2) by lia.
  split.
  - apply small_tier_in_range; assumption.
  - unfold get_house_type. rewrite (proj2 (Z.leb_le A 5)) by lia. reflexivity.
Qed.

Lemma C3_smallest_tier_witness :
  2 * 4356 <= 10000 /\ - max_int <= 2 /\
  (exists sqft,
      int_mul 2 c435_6 = Ok sqft /\
      calculate_room_config 2 = Ok (small_config sqft)) /\
  get_house_type 2 = "Single Floor House"%string.
Proof.
  assert (H1 : 2 * 4356 <= 10000) by lia.
  assert (H2 : - max_int <= 2) by (unfold max_int; lia).
  split; [ exact H1 | ]. split; [ exact H2 | ].
  apply (C3_smallest_tier 2 H1 H2).
Defined.

(** C4 (as stated): an error condition exists, at a land area above every
    threshold the product raises [OverflowError]. *)
Lemma C4_error_condition_counterexample :
  10 < 10 ^ 309 /\
  get_house_type (10 ^ 309) = "Villa"%string /\
  calculate_room_config (10 ^ 309) = Raise OverflowError.
Proof.
  split; [ vm_compute; reflexivity | ].
  split; vm_compute; reflexivity.
Qed.

(** C4 (amended): for [land_cents > 10], [get_house_type] returns "Villa";
    whenever [sqft = land_cents * 435.6] is computed and exceeds 2000,
    [calculate_room_config] returns the 4-bedroom record; the one error
    condition is the [OverflowError] of the conversion to [float], raised
    exactly for the integers of magnitude above 2^1024 - 2^970 - 1. *)
Theorem C4_largest_tier_and_errors (land_cents : Z) :
  (10 < land_cents -> get_house_type land_cents = "Villa"%string) /\
  (forall sqft,
      int_mul land_cents c435_6 = Ok sqft ->
      int_lt 2000 sqft = true ->
      calculate_room_config land_cents = Ok (large_config sqft)) /\
  ((in_range land_cents /\ exists r, calculate_room_config land_cents = Ok r)
   \/ (~ in_range land_cents /\
       calculate_room_config land_cents = Raise OverflowError)).
Proof.
  split; [ | split ].
  - intros H. unfold get_house_type.
    rewrite (proj2 (Z.leb_gt land_cents 5)) by lia.
    rewrite (proj2 (Z.leb_gt land_cents 10)) by lia. reflexivity.
  - intros x Hx Hgt.
    destruct (int_mul_ok_inv _ _ Hx) as (_ & Hg & _).
    rewrite (calculate_room_config_ok _ _ Hx). unfold room_config_of_sqft.
    rewrite int_lt_2000 in Hgt by assumption. apply Z.ltb_lt in Hgt.
    rewrite le_int_1000, le_int_2000 by assumption.
    rewrite (proj2 (Z.leb_gt _ _)) by lia.
    rewrite (proj2 (Z.leb_gt _ _)) by lia. reflexivity.
  - assert (Hdec : in_range land_cents \/ ~ in_range land_cents)
      by (unfold in_range; lia).
    destruct Hdec as [Hr | Hr].
    + left. split; [ exact Hr | ].
      destruct (int_mul_in_range _ Hr) as (x & Hx & _).
      exists (room_config_of_sqft x). apply calculate_room_config_ok. exact Hx.
    + right. split; [ exact Hr | ]. apply calculate_room_config_overflow. exact Hr.
Qed.

Lemma C4_largest_tier_and_errors_witness :
  10 < 11 /\
  get_house_type 11 = "Villa"%string /\
  exists sqft,
    int_mul 11 c435_6 = Ok sqft /\
    int_lt 2000 sqft = true /\
    calculate_room_config 11 = Ok (large_config sqft).
Proof.
  assert (H : 10 < 11) by lia.
  destruct (C4_largest_tier_and_errors 11) as (T1 & T2 & _).
  split; [ exact H | ]. split; [ exact (T1 H) | ].
  eexists.
  assert (Hx : int_mul 11 c435_6 = Ok (S754_finite false 5268419915651482 (-40)))
    by (vm_compute; reflexivity).
  assert (Hgt : int_lt 2000 (S754_finite false 5268419915651482 (-40)) = true)
    by (vm_compute; reflexivity).
  split; [ exact Hx | ]. split; [ exact Hgt | ].
  exact (T2 _ Hx Hgt).
Defined.

Section Boundary.

Lemma SFeqb_finite_eq (x : float) (m : positive) (e : Z) :
  SFeqb x (S754_finite false m e) = true -> x = S754_finite false m e.
Proof.
  unfold SFeqb. destruct x as [s | s | | s mx ex]; cbn [SFcompare].
  - discriminate.
  - destruct s; discriminate.
  - discriminate.
  - destruct s; [ discriminate | ].
    destruct (Z.compare_spec ex e) as [-> | _ | _]; try discriminate.
    change (Pos.compare_cont Eq mx m) with (Pos.compare mx m).
    destruct (Pos.compare_spec mx m) as [-> | _ | _]; try discriminate.
    reflexivity.
Qed.

End Boundary.

Section ThresholdAreas.

Lemma sqft_val_2_lt : sqft_val 2 < 1000 * 2 ^ 96.
Proof. vm_compute. reflexivity. Qed.

Lemma sqft_val_4_lt : sqft_val 4 < 2000 * 2 ^ 96.
Proof. vm_compute. reflexivity. Qed.

Lemma SFeqb_val (x y : float) :
  good x -> good y -> val x <> val y -> SFeqb x y = false.
Proof.
  intros Hx Hy Hne. unfold SFeqb. rewrite compare_good by assumption.
  destruct (Z.compare_spec (val x) (val y)); [ contradiction | reflexivity | reflexivity ].
Qed.

(** No integer land area has a square footage equal to a threshold. *)
Lemma int_sqft_off_thresholds (z : Z) (x : float) :
  int_mul z c435_6 = Ok x ->
  SFeqb x (of_Z 1000) = false /\ SFeqb x (of_Z 2000) = false.
Proof.
  intros Hx. destruct (int_mul_ok_inv z x Hx) as (_ & Hg & Hv).
  pose proof sqft_val_2_lt. pose proof sqft_val_3.
  pose proof sqft_val_4_lt. pose proof sqft_val_5.
  assert (V1 : val (of_Z 1000) = 1000 * 2 ^ 96) by reflexivity.
  assert (V2 : val (of_Z 2000) = 2000 * 2 ^ 96) by reflexivity.
  split; apply SFeqb_val; try assumption;
    try apply good_of_Z_1000; try apply good_of_Z_2000; rewrite Hv.
  - rewrite V1. destruct (Z_le_gt_dec z 2) as [Hz | Hz].
    + pose proof (sqft_val_mono z 2 Hz). lia.
    + pose proof (sqft_val_mono 3 z ltac:(lia)). lia.
  - rewrite V2. destruct (Z_le_gt_dec z 4) as [Hz | Hz].
    + pose proof (sqft_val_mono z 4 Hz). lia.
    + pose proof (sqft_val_mono 5 z ltac:(lia)). lia.
Qed.

Lemma calculate_room_config_of_ok (n : number) (x : float) :
  number_mul n c435_6 = Ok x ->
  calculate_room_config_of n = Ok (room_config_of_sqft x).
Proof.
  destruct n as [z | y]; cbn [number_mul calculate_room_config_of].
  - apply calculate_room_config_ok.
  - intros H. injection H as <-. reflexivity.
Qed.

End ThresholdAreas.

(** C5: a land area exactly at a threshold resolves to the lower tier:
    [get_house_type 5] is "Single Floor House", [get_house_type 10] is
    "Duplex", and whenever the square footage [land_cents * 435.6] equals
    1000 (2000), [calculate_room_config] returns the 2-bedroom (the
    3-bedroom) record.  The land areas 2.295684113865932 and
    4.591368227731864 have these square footages; no integer has. *)
Theorem C5_thresholds_inclusive :
  get_house_type 5 = "Single Floor House"%string /\
  get_house_type 10 = "Duplex"%string /\
  (forall land_cents sqft,
      number_mul land_cents c435_6 = Ok sqft ->
      SFeqb sqft (of_Z 1000) = true ->
      calculate_room_config_of land_cents
      = Ok (RoomConfig 2 1 1 1 "1 compact" "Small balcony" "1000 sq ft")) /\
  (forall land_cents sqft,
      number_mul land_cents c435_6 = Ok sqft ->
      SFeqb sqft (of_Z 2000) = true ->
      calculate_room_config_of land_cents
      = Ok (RoomConfig 3 2 1 1 "1 car" "Medium balcony" "2000 sq ft")) /\
  number_mul (Float area_for_1000) c435_6 = Ok (of_Z 1000) /\
  number_mul (Float area_for_2000) c435_6 = Ok (of_Z 2000) /\
  (forall z, calculate_room_config_of (Int z) = calculate_room_config z) /\
  (forall z sqft,
      int_mul z c435_6 = Ok sqft ->
      calculate_room_config z = Ok (room_config_of_sqft sqft) /\
      SFeqb sqft (of_Z 1000) = false /\ SFeqb sqft (of_Z 2000) = false).
Proof.
  split; [ reflexivity | ]. split; [ reflexivity | ].
  split; [ | split; [ | split; [ | split; [ | split ] ] ] ].
  - intros n x Hx He. rewrite (calculate_room_config_of_ok n x Hx).
    change (of_Z 1000) with (S754_finite false 8796093022208000 (-43)) in He.
    apply SFeqb_finite_eq in He. subst x. vm_compute. reflexivity.
  - intros n x Hx He. rewrite (calculate_room_config_of_ok n x Hx).
    change (of_Z 2000) with (S754_finite false 8796093022208000 (-42)) in He.
    apply SFeqb_finite_eq in He. subst x. vm_compute. reflexivity.
  - vm_compute. reflexivity.
  - vm_compute. reflexivity.
  - reflexivity.
  - intros z x Hx. split; [ apply calculate_room_config_ok; exact Hx | ].
    apply (int_sqft_off_thresholds z x Hx).
Qed.

Lemma C5_thresholds_inclusive_witness :
  number_mul (Float area_for_1000) c435_6 = Ok (of_Z 1000) /\
  SFeqb (of_Z 1000) (of_Z 1000) = true /\
  calculate_room_config_of (Float area_for_1000)
  = Ok (RoomConfig 2 1 1 1 "1 compact" "Small balcony" "1000 sq ft") /\
  number_mul (Float area_for_2000) c435_6 = Ok (of_Z 2000) /\
  SFeqb (of_Z 2000) (of_Z 2000) = true /\
  calculate_room_config_of (Float area_for_2000)
  = Ok (RoomConfig 3 2 1 1 "1 car" "Medium balcony" "2000 sq ft").
Proof.
  assert (M1 : number_mul (Float area_for_1000) c435_6 = Ok (of_Z 1000))
    by (vm_compute; reflexivity).
  assert (M2 : number_mul (Float area_for_2000) c435_6 = Ok (of_Z 2000))
    by (vm_compute; reflexivity).
  assert (E1 : SFeqb (of_Z 1000) (of_Z 1000) = true) by (vm_compute; reflexivity).
  assert (E2 : SFeqb (of_Z 2000) (of_Z 2000) = true) by (vm_compute; reflexivity).
  destruct C5_thresholds_inclusive as (_ & _ & T1 & T2 & _).
  split; [ exact M1 | ]. split; [ exact E1 | ].
  split; [ exact (T1 _ _ M1 E1) | ].
  split; [ exact M2 | ]. split; [ exact E2 | ].
  exact (T2 _ _ M2 E2).
Defined.

(** C6 (as stated): a non-positive integer on which
    [calculate_room_config] raises. *)
Lemma C6_raises_counterexample :
  - 10 ^ 309 <= 0 /\
  get_house_type (- 10 ^ 309) = "Single Floor House"%string /\
  calculate_room_config (- 10 ^ 309) = Raise OverflowError /\
  is_ok (calculate_room_config (- 10 ^ 309)) = false.
Proof.
  split; [ vm_compute; discriminate | ].
  split; [ vm_compute; reflexivity | ].
  split; vm_compute; reflexivity.
Qed.

(** C6 (amended): for every non-positive [land_cents] that [float]
    converts, both functions return the tier-1 results ("Single Floor
    House", the 2-bedroom record); [get_house_type] returns for every
    integer, and [calculate_room_config] returns exactly for the integers
    of magnitude at most 2^1024 - 2^970 - 1 and raises [OverflowError] for
    the others. *)
Theorem C6_nonpositive_and_totality (land_cents : Z) :
  (land_cents <= 0 ->
   get_house_type land_cents = "Single Floor House"%string) /\
  (land_cents <= 0 -> - max_int <= land_cents ->
   exists sqft,
     int_mul land_cents c435_6 = Ok sqft /\
     calculate_room_config land_cents = Ok (small_config sqft)) /\
  (get_house_type land_cents = "Single Floor House"%string \/
   get_house_type land_cents = "Duplex"%string \/
   get_house_type land_cents = "Villa"%string) /\
  (is_ok (calculate_room_config land_cents) = true <-> in_range land_cents) /\
  (~ in_range land_cents ->
   calculate_room_config land_cents = Raise OverflowError).
Proof.
  split; [ | split; [ | split; [ | split ] ] ].
  - intros H. unfold get_house_type.
    rewrite (proj2 (Z.leb_le land_cents 5)) by lia. reflexivity.
  - intros H Hlo.
    destruct (small_tier_in_range land_cents ltac:(lia) Hlo) as (x & Hx & Hc).
    exists x. split; assumption.
  - unfold get_house_type.
    destruct (land_cents <=? 5); [ left; reflexivity | ].
    destruct (land_cents <=? 10); [ right; left | right; right ]; reflexivity.
  - split.
    + intros Hok.
      destruct (calculate_room_config land_cents) as [r | e] eqn:Hc; [ | discriminate ].
      destruct (calculate_room_config_inv _ _ Hc) as (x & Hx & _).
      apply (int_mul_ok_inv _ _ Hx).
    + intros Hr. destruct (int_mul_in_range _ Hr) as (x & Hx & _).
      rewrite (calculate_room_config_ok _ _ Hx). reflexivity.
  - apply calculate_room_config_overflow.
Qed.

Lemma C6_nonpositive_and_totality_witness :
  0 <= 0 /\ - max_int <= 0 /\ in_range 0 /\
  get_house_type 0 = "Single Floor House"%string /\
  (exists sqft,
     int_mul 0 c435_6 = Ok sqft /\
     calculate_room_config 0 = Ok (small_config sqft)) /\
  is_ok (calculate_room_config 0) = true.
Proof.
  assert (H0 : 0 <= 0) by lia.
  assert (H1 : - max_int <= 0) by (unfold max_int; lia).
  assert (H2 : in_range 0) by (unfold in_range, max_int; lia).
  destruct (C6_nonpositive_and_totality 0) as (T1 & T2 & _ & T4 & _).
  split; [ exact H0 | ]. split; [ exact H1 | ]. split; [ exact H2 | ].
  split; [ exact (T1 H0) | ]. split; [ exact (T2 H0 H1) | ].
  exact (proj2 T4 H2).
Defined.

(** ** Accuracy of the square footage *)

Section RoundingError.

Lemma rne_shift_error (X n : Z) :
  0 <= X -> 1 <= n -> 2 * Z.abs (rne_shift X n * 2 ^ n - X) <= 2 ^ n.
Proof.
  intros HX Hn.
  assert (Hp : 0 < 2 ^ n) by (apply Z.pow_pos_nonneg; lia).
  pose proof (Z.div_mod X (2 ^ n) ltac:(lia)) as Hdm.
  pose proof (Z.mod_pos_bound X (2 ^ n) Hp) as Hr.
  unfold rne_shift.
  set (q := X / 2 ^ n) in *. set (r := X mod 2 ^ n) in *. set (p := 2 ^ n) in *.
  assert (Hq1 : (q + 1) * p = p * q + p) by ring.
  assert (Hq0 : q * p = p * q) by ring.
  destruct (Z.compare_spec (2 * r) p) as [He | Hl | Hg];
    [ destruct (Z.even q) | | ]; rewrite ?Hq1, ?Hq0; lia.
Qed.

(** Rounding to 53 bits moves a value by at most half a unit in the last
    place, a relative error of at most 2^-53. *)
Lemma rnd53_error (X : Z) : 0 < X -> 2 ^ 53 * Z.abs (rnd53 X - X) <= X.
Proof.
  intros HX. pose proof (digits_bounds X HX) as [Hlo _].
  destruct (Z_le_gt_dec (digits X) 53) as [Hs | Hb].
  - rewrite rnd53_small by assumption. replace (X - X) with 0 by lia. simpl. lia.
  - unfold rnd53. rewrite (proj2 (Z.leb_gt _ _)) by lia.
    set (n := digits X - 53) in *.
    pose proof (rne_shift_error X n ltac:(lia) ltac:(lia)) as He.
    assert (Hpow : 2 ^ (digits X - 1) = 2 ^ 52 * 2 ^ n).
    { rewrite <- (pow2_split 52 n) by lia. f_equal. lia. }
    rewrite Hpow in Hlo.
    assert (0 < 2 ^ n) by (apply Z.pow_pos_nonneg; lia).
    change (2 ^ 53) with (2 ^ 52 * 2).
    nia.
Qed.

Lemma rnd53_pos (X : Z) : 0 < X -> 0 < rnd53 X.
Proof.
  intros HX. pose proof (rnd53_bounds X HX) as [Hlo _].
  assert (0 < 2 ^ (digits X - 1)).
  { apply Z.pow_pos_nonneg; [ lia | pose proof (digits_pos X); lia ]. }
  lia.
Qed.

Lemma sqft_mag_finite_bound : sqft_mag (2 ^ 1015) < inf_val.
Proof. vm_compute. reflexivity. Qed.

Lemma mc_nearest : 10 * mc - 4356 * 2 ^ 44 = 4.
Proof. reflexivity. Qed.

(** The doubly rounded product is within a relative error of 2^-51 of the
    exact product with 435.6. *)
Lemma sqft_mag_error (a : Z) :
  0 <= a <= 2 ^ 1015 ->
  sqft_mag a < inf_val /\
  2 ^ 51 * Z.abs (10 * sqft_mag a - a * 4356 * 2 ^ 96) <= a * 4356 * 2 ^ 96.
Proof.
  intros Ha.
  assert (Hfin : sqft_mag a < inf_val).
  { apply Z.le_lt_trans with (sqft_mag (2 ^ 1015)).
    - apply sqft_mag_mono. lia.
    - exact sqft_mag_finite_bound. }
  split; [ exact Hfin | ].
  destruct (Z.eq_dec a 0) as [-> | Hne].
  { rewrite sqft_mag_0. simpl. lia. }
  unfold sqft_mag, cap in *.
  assert (Hmin : Z.min (rnd53 (rnd53 a * 2 ^ 52 * mc)) inf_val
                 = rnd53 (rnd53 a * 2 ^ 52 * mc)) by lia.
  rewrite Hmin.
  pose proof (rnd53_error a ltac:(lia)) as E1.
  pose proof (rnd53_pos a ltac:(lia)) as R1pos.
  set (R1 := rnd53 a) in *.
  assert (HP : 0 < R1 * 2 ^ 52 * mc).
  { apply Z.mul_pos_pos; [ apply Z.mul_pos_pos | ]; try lia; reflexivity. }
  pose proof (rnd53_error (R1 * 2 ^ 52 * mc) HP) as E2.
  set (R2 := rnd53 (R1 * 2 ^ 52 * mc)) in *.
  unfold mc in *. lia.
Qed.

End RoundingError.

(** C7 (as stated): at one cent the computed square footage is the double
    435.600000000000022..., not 435.6, and the record and the view show it
    as 436. *)
Lemma C7_inexact_counterexample :
  exists x,
    int_mul 1 c435_6 = Ok x /\
    10 * val x - 1 * 4356 * 2 ^ 96 = 4 * 2 ^ 52 /\
    10 * val x <> 1 * 4356 * 2 ^ 96 /\
    Total_Area (room_config_of_sqft x) = "436 sq ft"%string /\
    result_sqft 1 = Ok 436.
Proof.
  exists c435_6.
  split; [ vm_compute; reflexivity | ].
  split; [ vm_compute; reflexivity | ].
  split; [ vm_compute; discriminate | ].
  split; vm_compute; reflexivity.
Qed.

(** C7 (amended): two evaluations of [calculate_room_config], or of the
    view's [int(round(land_cents * 435.6))], on the same [A] give identical
    results; for [|A| <= 2^1015] the derived square footage is the double
    obtained by rounding [A] and then the product with the double nearest
    435.6, each to nearest even: it is within a relative error of 2^-51 of
    [A * 435.6], without being equal to it in general. *)
Theorem C7_sqft_rounded_product (A : Z) :
  (forall r1 r2,
      calculate_room_config A = r1 -> calculate_room_config A = r2 -> r1 = r2) /\
  (forall n1 n2, result_sqft A = n1 -> result_sqft A = n2 -> n1 = n2) /\
  (Z.abs A <= 2 ^ 1015 ->
   exists x,
     int_mul A c435_6 = Ok x /\
     calculate_room_config A = Ok (room_config_of_sqft x) /\
     result_sqft A = round_to_int x /\
     val x = sqft_val A /\
     Z.abs (val x) < inf_val /\
     2 ^ 51 * Z.abs (10 * val x - A * 4356 * 2 ^ 96)
     <= Z.abs A * 4356 * 2 ^ 96).
Proof.
  split; [ congruence | ]. split; [ congruence | ].
  intros HA.
  assert (Hr : in_range A) by (unfold in_range, max_int; lia).
  destruct (int_mul_in_range A Hr) as (x & Hx & _ & Hv).
  exists x. split; [ exact Hx | ].
  split; [ apply calculate_room_config_ok; exact Hx | ].
  split; [ unfold result_sqft; rewrite Hx; reflexivity | ].
  split; [ exact Hv | ].
  destruct (sqft_mag_error (Z.abs A) ltac:(lia)) as [Hfin Herr].
  pose proof (sqft_mag_nonneg (Z.abs A) ltac:(lia)) as Hnn.
  rewrite Hv. unfold sqft_val.
  destruct (Z.sgn_spec A) as [(HA0 & ->) | [(HA0 & ->) | (HA0 & ->)]]; split; lia.
Qed.

Lemma C7_sqft_rounded_product_witness :
  Z.abs 1 <= 2 ^ 1015 /\
  exists x,
    int_mul 1 c435_6 = Ok x /\
    calculate_room_config 1 = Ok (room_config_of_sqft x) /\
    result_sqft 1 = round_to_int x /\
    val x = sqft_val 1 /\
    Z.abs (val x) < inf_val /\
    2 ^ 51 * Z.abs (10 * val x - 1 * 4356 * 2 ^ 96) <= Z.abs 1 * 4356 * 2 ^ 96.
Proof.
  assert (H : Z.abs 1 <= 2 ^ 1015) by (vm_compute; discriminate).
  split; [ exact H | ].
  exact (proj2 (proj2 (C7_sqft_rounded_product 1)) H).
Defined.

(** C8 (as stated): past the range of [float] neither function returns a
    pair, both raise. *)
Lemma C8_no_pair_counterexample :
  create_floor_plan false (2 ^ 1024 + 1) "Duplex"
    (medium_config (S754_zero false)) = Raise OverflowError /\
  create_detailed_floor_plan false (2 ^ 1024 + 1) "Duplex"
    (medium_config (S754_zero false)) = Raise OverflowError.
Proof. split; vm_compute; reflexivity. Qed.

(** C8 (amended): with the host API unavailable, [create_floor_plan] and
    [create_detailed_floor_plan] give equal results for every [land_cents],
    [house_type] and [room_config], independent of the last two: for an
    integer that [float] converts, the pair (30, 35), (40, 50) or (50, 70)
    of the same square-footage lookup, and otherwise the same
    [OverflowError]. *)
Theorem C8_simulated_paths_agree
  (land_cents : Z) (house_type house_type' : string) (rc rc' : room_config) :
  create_floor_plan false land_cents house_type rc
  = create_detailed_floor_plan false land_cents house_type' rc' /\
  create_floor_plan false land_cents house_type rc
  = create_floor_plan false land_cents house_type' rc' /\
  create_detailed_floor_plan false land_cents house_type rc
  = create_detailed_floor_plan false land_cents house_type' rc' /\
  ((in_range land_cents /\
    exists sqft,
      int_mul land_cents c435_6 = Ok sqft /\
      create_floor_plan false land_cents house_type rc
      = Ok (if le_int sqft 1000 then (30, 35)
            else if le_int sqft 2000 then (40, 50)
            else (50, 70)))
   \/ (~ in_range land_cents /\
       create_floor_plan false land_cents house_type rc = Raise OverflowError)).
Proof.
  split; [ reflexivity | ]. split; [ reflexivity | ]. split; [ reflexivity | ].
  assert (Hdec : in_range land_cents \/ ~ in_range land_cents)
    by (unfold in_range; lia).
  unfold create_floor_plan. cbn [negb].
  destruct Hdec as [Hr | Hr].
  - left. split; [ exact Hr | ].
    destruct (int_mul_in_range _ Hr) as (x & Hx & _).
    exists x. split; [ exact Hx | ]. rewrite Hx. cbn [bind].
    destruct (le_int x 1000); [ reflexivity | ].
    destruct (le_int x 2000); reflexivity.
  - right. split; [ exact Hr | ].
    rewrite int_mul_out_of_range by assumption. reflexivity.
Qed.

(** With the host API available the two functions size differently: the
    equality of C8 needs the simulated path. *)
Lemma blender_paths_differ :
  create_floor_plan true 1 "Villa" (small_config (S754_zero false)) = Ok (30, 35) /\
  create_detailed_floor_plan true 1 "Villa" (small_config (S754_zero false)) = Ok (55, 60).
Proof. split; vm_compute; reflexivity. Qed.

(** C9: for every integer [land_cents] the chained conditions
    [land_cents <= 3], [4 <= land_cents <= 6], [7 <= land_cents <= 10],
    otherwise, partition the integers, exactly one of the four files is
    selected, and [result] and [download_3d_model] select the same file. *)
Theorem C9_fallback_glb_partition (land_cents : Z) :
  result_source_glb land_cents = download_source_glb land_cents /\
  ((land_cents <= 3 /\ result_source_glb land_cents = "1bhk.glb"%string)
   \/ (4 <= land_cents <= 6 /\ result_source_glb land_cents = "2bhk.glb"%string)
   \/ (7 <= land_cents <= 10 /\ result_source_glb land_cents = "3bhk.glb"%string)
   \/ (10 < land_cents /\ result_source_glb land_cents = "villa.glb"%string)) /\
  Z.b2z (land_cents <=? 3)
  + Z.b2z ((4 <=? land_cents) && (land_cents <=? 6))
  + Z.b2z ((7 <=? land_cents) && (land_cents <=? 10))
  + Z.b2z (negb (land_cents <=? 3)
           && negb ((4 <=? land_cents) && (land_cents <=? 6))
           && negb ((7 <=? land_cents) && (land_cents <=? 10))) = 1.
Proof.
  split; [ reflexivity | ]. unfold result_source_glb.
  destruct (Z.leb_spec land_cents 3), (Z.leb_spec 4 land_cents),
    (Z.leb_spec land_cents 6), (Z.leb_spec 7 land_cents),
    (Z.leb_spec land_cents 10); cbn [andb negb Z.b2z];
    (split; [ | try reflexivity; lia ]); try lia;
    try (left; split; [ lia | reflexivity ]);
    try (right; left; split; [ lia | reflexivity ]);
    try (right; right; left; split; [ lia | reflexivity ]);
    try (right; right; right; split; [ lia | reflexivity ]).
Qed.

(** * Further properties of the planner *)

(** ** What the result view displays *)

Section Display.

Lemma rne_shift_nonneg (X n : Z) : 0 <= X -> 0 <= n -> 0 <= rne_shift X n.
Proof.
  intros HX Hn. pose proof (rne_shift_bounds X n HX Hn) as [Hlo _].
  assert (0 <= X / 2 ^ n) by (apply Z.div_pos; [ lia | apply Z.pow_pos_nonneg; lia ]).
  lia.
Qed.

(** The integer nearest to a double, read off its exact value. *)
Lemma nearest_int_val (m : positive) (e : Z) :
  -96 <= e -> nearest_int m e = rne_shift (Z.pos m * 2 ^ (e + 96)) 96.
Proof.
  intros He. unfold nearest_int.
  destruct (Z.leb_spec 0 e) as [Hpos | Hneg].
  - rewrite (pow2_split e 96) by lia. rewrite Z.mul_assoc.
    rewrite rne_shift_exact by lia. reflexivity.
  - replace 96 with (- e + (e + 96)) at 2 by lia.
    rewrite rne_shift_scale by lia. reflexivity.
Qed.

(** A value strictly between two consecutive half-integers rounds to the
    integer between them. *)
Lemma rne_shift_nearest (V n K : Z) :
  0 <= V -> 1 <= n ->
  (2 * K - 1) * 2 ^ (n - 1) < V < (2 * K + 1) * 2 ^ (n - 1) ->
  rne_shift V n = K.
Proof.
  intros HV Hn Hb.
  assert (Hp : 0 < 2 ^ (n - 1)) by (apply Z.pow_pos_nonneg; lia).
  assert (Hpn : 2 ^ n = 2 * 2 ^ (n - 1)).
  { replace n with (1 + (n - 1)) at 1 by lia. rewrite (pow2_split 1 (n - 1)) by lia.
    reflexivity. }
  pose proof (Z.div_mod V (2 ^ n) ltac:(lia)) as Hdm.
  pose proof (Z.mod_pos_bound V (2 ^ n) ltac:(lia)) as Hr.
  unfold rne_shift.
  set (q := V / 2 ^ n) in *. set (r := V mod 2 ^ n) in *.
  rewrite Hpn in *. set (p := 2 ^ (n - 1)) in *.
  assert (Hq : q <= K - 1 \/ q = K \/ K + 1 <= q) by lia.
  destruct (Z.compare_spec (2 * r) (2 * p)) as [He | Hl | Hg];
    destruct Hq as [Hq | [Hq | Hq]]; try nia.
Qed.

Lemma sqft_mag_1 : 435 * 2 ^ 96 <= sqft_mag 1.
Proof. vm_compute. discriminate. Qed.

Lemma sqft_val_zero (z : Z) : sqft_val z = 0 -> z = 0.
Proof.
  unfold sqft_val. intros H.
  destruct (Z.eq_dec z 0) as [ | Hne ]; [ assumption | exfalso ].
  pose proof (sqft_mag_mono 1 (Z.abs z) ltac:(lia)) as Hm.
  pose proof sqft_mag_1.
  assert (0 < sqft_mag (Z.abs z)) by lia.
  destruct (Z.sgn_spec z) as [(? & E) | [(? & E) | (? & E)]]; rewrite E in H; lia.
Qed.

(** What [round] and the [.0f] format make of the product computed for
    [land_cents], in terms of its exact magnitude. *)
Lemma int_mul_display (z : Z) (x : float) :
  int_mul z c435_6 = Ok x ->
  sqft_mag (Z.abs z) < inf_val ->
  round_to_int x = Ok (Z.sgn z * rne_shift (sqft_mag (Z.abs z)) 96) /\
  format_0f x = str_int (Z.sgn z * rne_shift (sqft_mag (Z.abs z)) 96).
Proof.
  intros Hx Hfin.
  destruct (int_mul_ok_inv z x Hx) as (_ & Hg & Hv).
  pose proof (sqft_mag_nonneg (Z.abs z) ltac:(lia)) as Hnn.
  destruct x as [s | s | | s m e]; cbn [good val] in Hg, Hv.
  - symmetry in Hv. apply sqft_val_zero in Hv. subst z.
    assert (Hs : S754_zero s = S754_zero false).
    { assert (H0 : int_mul 0 c435_6 = Ok (S754_zero false)) by reflexivity.
      rewrite H0 in Hx. injection Hx as <-. reflexivity. }
    rewrite Hs. split; reflexivity.
  - exfalso. unfold sqft_val in Hv.
    destruct s, (Z.sgn_spec z) as [(? & E) | [(? & E) | (? & E)]];
      rewrite E in Hv; pose proof inf_val_pos; lia.
  - contradiction.
  - destruct Hg as [Hm He].
    pose proof (finite_val_bounds m e Hm He) as Hb.
    pose proof (nearest_int_val m e ltac:(lia)) as Hn.
    cbn [round_to_int format_0f]. rewrite Hn.
    set (V := Z.pos m * 2 ^ (e + 96)) in *.
    unfold sqft_val in Hv.
    destruct s, (Z.sgn_spec z) as [(Hz & E) | [(Hz & E) | (Hz & E)]];
      rewrite E in Hv |- *; try lia.
    + assert (HV : V = sqft_mag (Z.abs z)) by lia. rewrite <- HV.
      pose proof (sqft_mag_mono 1 (Z.abs z) ltac:(lia)) as Hmono.
      pose proof sqft_mag_1 as H1.
      pose proof (rne_shift_bounds V 96 ltac:(lia) ltac:(lia)) as [Hlo _].
      assert (435 <= V / 2 ^ 96).
      { apply Z.div_le_lower_bound; [ apply Z.pow_pos_nonneg; lia | lia ]. }
      split; [ f_equal; lia | ].
      unfold str_int. rewrite (proj2 (Z.ltb_lt _ _)) by lia.
      do 2 f_equal. lia.
    + assert (HV : V = sqft_mag (Z.abs z)) by lia. rewrite <- HV.
      pose proof (rne_shift_nonneg V 96 ltac:(lia) ltac:(lia)).
      split; [ f_equal; lia | ].
      unfold str_int. rewrite (proj2 (Z.ltb_ge _ _)) by lia.
      rewrite Z.mul_1_l. reflexivity.
Qed.

End Display.

Section NearestInteger.

Lemma nearest_remainder_nonzero (x : Z) : (2 * x + 5) mod 10 <> 0.
Proof.
  intros Ht.
  pose proof (Z.div_mod (2 * x + 5) 10 ltac:(lia)) as Hdm. rewrite Ht in Hdm.
  assert (E : 2 * (x - 5 * ((2 * x + 5) / 10)) = -5) by lia. lia.
Qed.

(** The nearest integer to an even number of tenths is odd in sign. *)
Lemma nearest_tenths_opp (x : Z) :
  (- (2 * x) + 5) / 10 = - ((2 * x + 5) / 10).
Proof.
  pose proof (nearest_remainder_nonzero x) as Hnz.
  pose proof (Z.div_mod (2 * x + 5) 10 ltac:(lia)) as Hdm.
  pose proof (Z.mod_pos_bound (2 * x + 5) 10 ltac:(lia)) as Hmb.
  symmetry. apply (Z.div_unique _ 10 _ (10 - (2 * x + 5) mod 10)); lia.
Qed.

Lemma nearest_tenths_signed (z : Z) :
  Z.sgn z * ((Z.abs z * 4356 + 5) / 10) = (z * 4356 + 5) / 10.
Proof.
  destruct (Z.sgn_spec z) as [(Hs & ->) | [(Hs & ->) | (Hs & ->)]].
  - replace (Z.abs z) with z by lia. lia.
  - subst z. reflexivity.
  - replace (Z.abs z) with (- z) by lia.
    replace (- z * 4356) with (2 * (- z * 2178)) by lia.
    replace (z * 4356 + 5) with (- (2 * (- z * 2178)) + 5) by lia.
    rewrite nearest_tenths_opp. lia.
Qed.

Lemma nearest_tenths_close (z : Z) :
  Z.abs (10 * ((z * 4356 + 5) / 10) - z * 4356) <= 4.
Proof.
  pose proof (nearest_remainder_nonzero (z * 2178)) as Hnz.
  replace (2 * (z * 2178) + 5) with (z * 4356 + 5) in Hnz by lia.
  pose proof (Z.div_mod (z * 4356 + 5) 10 ltac:(lia)) as Hdm.
  pose proof (Z.mod_pos_bound (z * 4356 + 5) 10 ltac:(lia)) as Hmb.
  lia.
Qed.

End NearestInteger.

(** X6: for land areas up to 10^11 cents in magnitude the square footage
    shown by the result view, [int(round(land_cents * 435.6))], is the
    integer nearest to the exact product [land_cents * 4356 / 10]: the
    rounding errors of the double arithmetic never change the integer. *)
Theorem result_sqft_is_exact_rounding (land_cents : Z) :
  Z.abs land_cents <= 10 ^ 11 ->
  result_sqft land_cents = Ok ((land_cents * 4356 + 5) / 10) /\
  Z.abs (10 * ((land_cents * 4356 + 5) / 10) - land_cents * 4356) <= 4.
Proof.
  intros Hz.
  pose proof (nearest_tenths_close land_cents) as Hnear.
  split; [ | exact Hnear ].
  assert (Hr : in_range land_cents) by (unfold in_range, max_int; lia).
  destruct (int_mul_in_range land_cents Hr) as (x & Hx & _).
  destruct (sqft_mag_error (Z.abs land_cents) ltac:(lia)) as [Hfin Herr].
  destruct (int_mul_display land_cents x Hx Hfin) as [Hround _].
  unfold result_sqft. rewrite Hx. cbn [bind]. rewrite Hround. f_equal.
  pose proof (sqft_mag_nonneg (Z.abs land_cents) ltac:(lia)) as Hnn.
  set (V := sqft_mag (Z.abs land_cents)) in *.
  rewrite (rne_shift_nearest V 96 ((Z.abs land_cents * 4356 + 5) / 10)).
  - apply nearest_tenths_signed.
  - exact Hnn.
  - lia.
  - change (2 ^ (96 - 1)) with (2 ^ 95).
    pose proof (nearest_tenths_close (Z.abs land_cents)) as Hclose.
    set (K := (Z.abs land_cents * 4356 + 5) / 10) in *.
    lia.
Qed.

Lemma result_sqft_is_exact_rounding_witness :
  Z.abs 3 <= 10 ^ 11 /\
  result_sqft 3 = Ok ((3 * 4356 + 5) / 10) /\
  Z.abs (10 * ((3 * 4356 + 5) / 10) - 3 * 4356) <= 4.
Proof.
  assert (H : Z.abs 3 <= 10 ^ 11) by (vm_compute; discriminate).
  split; [ exact H | exact (result_sqft_is_exact_rounding 3 H) ].
Defined.

Lemma sqft_mag_le_inf (a : Z) : sqft_mag a <= inf_val.
Proof. unfold sqft_mag, cap. lia. Qed.

(** X7: whenever the result view computes its [sqft], the "Total Area" of
    the record returned by [calculate_room_config] for the same land area
    is the text of that integer followed by " sq ft". *)
Theorem total_area_matches_view_sqft (land_cents n : Z) :
  result_sqft land_cents = Ok n ->
  exists r,
    calculate_room_config land_cents = Ok r /\
    Total_Area r = (str_int n ++ " sq ft")%string.
Proof.
  unfold result_sqft.
  destruct (int_mul land_cents c435_6) as [x | e] eqn:Hx; cbn [bind]; [ | discriminate ].
  intros Hn. exists (room_config_of_sqft x).
  split; [ apply calculate_room_config_ok; exact Hx | ].
  assert (Hfin : sqft_mag (Z.abs land_cents) < inf_val).
  { destruct (int_mul_ok_inv _ _ Hx) as (_ & Hg & Hv).
    pose proof (sqft_mag_le_inf (Z.abs land_cents)) as Hle.
    destruct (Z.eq_dec (sqft_mag (Z.abs land_cents)) inf_val) as [Heq | Hne]; [ | lia ].
    exfalso. pose proof inf_val_pos as Hp.
    unfold sqft_val in Hv. rewrite Heq in Hv.
    assert (Hz : land_cents <> 0).
    { intros ->. change (Z.abs 0) with 0 in Heq. rewrite sqft_mag_0 in Heq. lia. }
    destruct x as [s | s | | s m e]; cbn [good val round_to_int] in *;
      try discriminate; try contradiction.
    - destruct (Z.sgn_spec land_cents) as [(? & E) | [(? & E) | (? & E)]];
        rewrite E in Hv; lia.
    - destruct Hg as [Hm He]. pose proof (finite_val_bounds m e Hm He).
      destruct s, (Z.sgn_spec land_cents) as [(? & E) | [(? & E) | (? & E)]];
        rewrite E in Hv; lia. }
  destruct (int_mul_display land_cents x Hx Hfin) as [Hround Hfmt].
  rewrite Hround in Hn. injection Hn as <-.
  assert (Ht : Total_Area (room_config_of_sqft x) = total_area x).
  { unfold room_config_of_sqft.
    destruct (le_int x 1000); [ reflexivity | ].
    destruct (le_int x 2000); reflexivity. }
  rewrite Ht. unfold total_area. rewrite Hfmt. reflexivity.
Qed.

Lemma total_area_matches_view_sqft_witness :
  result_sqft (-3) = Ok (-1307) /\
  exists r,
    calculate_room_config (-3) = Ok r /\
    Total_Area r = (str_int (-1307) ++ " sq ft")%string.
Proof.
  assert (H : result_sqft (-3) = Ok (-1307)) by (vm_compute; reflexivity).
  split; [ exact H | exact (total_area_matches_view_sqft (-3) (-1307) H) ].
Defined.

(** X8: every land area that [float] converts and whose house type is
    "Duplex" or "Villa" gets the 4-bedroom record from
    [calculate_room_config], and a returned record with fewer than four
    bedrooms belongs to a "Single Floor House". *)
Theorem duplex_and_villa_have_four_bedrooms (land_cents : Z) :
  (in_range land_cents ->
   get_house_type land_cents <> "Single Floor House"%string ->
   exists sqft,
     int_mul land_cents c435_6 = Ok sqft /\
     calculate_room_config land_cents
     = Ok (RoomConfig 4 3 2 2 "2-car garage" "Large balcony + terrace"
             (total_area sqft))) /\
  (forall r,
      calculate_room_config land_cents = Ok r ->
      Bedrooms r < 4 ->
      get_house_type land_cents = "Single Floor House"%string).
Proof.
  split.
  - intros Hr Hne. destruct (int_mul_in_range _ Hr) as (x & Hx & _).
    exists x. split; [ exact Hx | ].
    rewrite (calculate_room_config_ok _ _ Hx), (room_config_of_sqft_tiers _ _ Hx).
    unfold get_house_type in Hne.
    destruct (Z.leb_spec land_cents 5) as [H5 | H5];
      [ contradiction Hne; reflexivity | ].
    rewrite (proj2 (Z.leb_gt land_cents 2)) by lia.
    rewrite (proj2 (Z.leb_gt land_cents 4)) by lia. reflexivity.
  - intros r Hc Hb.
    destruct (calculate_room_config_inv _ _ Hc) as (x & Hx & ->).
    rewrite (room_config_of_sqft_tiers _ _ Hx) in Hb. unfold get_house_type.
    destruct (Z.leb_spec land_cents 5) as [H5 | H5]; [ reflexivity | ].
    rewrite (proj2 (Z.leb_gt land_cents 2)) in Hb by lia.
    rewrite (proj2 (Z.leb_gt land_cents 4)) in Hb by lia.
    cbn in Hb. lia.
Qed.

Lemma duplex_and_villa_have_four_bedrooms_witness :
  in_range 7 /\
  get_house_type 7 <> "Single Floor House"%string /\
  exists sqft,
    int_mul 7 c435_6 = Ok sqft /\
    calculate_room_config 7
    = Ok (RoomConfig 4 3 2 2 "2-car garage" "Large balcony + terrace"
            (total_area sqft)).
Proof.
  assert (Hr : in_range 7) by (unfold in_range, max_int; lia).
  assert (Hne : get_house_type 7 <> "Single Floor House"%string)
    by (vm_compute; discriminate).
  split; [ exact Hr | ]. split; [ exact Hne | ].
  exact (proj1 (duplex_and_villa_have_four_bedrooms 7) Hr Hne).
Defined.

(** X9: in the fallback path the model file chosen for a land area is
    named for fewer bedrooms than [calculate_room_config] gives it:
    '1bhk.glb' goes with 2 or 3 bedrooms, '2bhk.glb' with 3 or 4, and
    '3bhk.glb' and 'villa.glb' with 4. *)
Theorem fallback_glb_and_bedrooms (land_cents : Z) (r : room_config) :
  calculate_room_config land_cents = Ok r ->
  (result_source_glb land_cents = "1bhk.glb"%string /\ 2 <= Bedrooms r <= 3)
  \/ (result_source_glb land_cents = "2bhk.glb"%string /\ 3 <= Bedrooms r <= 4)
  \/ (result_source_glb land_cents = "3bhk.glb"%string /\ Bedrooms r = 4)
  \/ (result_source_glb land_cents = "villa.glb"%string /\ Bedrooms r = 4).
Proof.
  intros Hc.
  destruct (calculate_room_config_inv _ _ Hc) as (x & Hx & ->).
  rewrite (room_config_of_sqft_tiers _ _ Hx). unfold result_source_glb.
  destruct (Z.leb_spec land_cents 3), (Z.leb_spec 4 land_cents),
    (Z.leb_spec land_cents 6), (Z.leb_spec 7 land_cents),
    (Z.leb_spec land_cents 10), (Z.leb_spec land_cents 2),
    (Z.leb_spec land_cents 4); cbn [andb]; try lia;
    try (left; split; [ reflexivity | cbn; lia ]);
    try (right; left; split; [ reflexivity | cbn; lia ]);
    try (right; right; left; split; [ reflexivity | cbn; lia ]);
    try (right; right; right; split; [ reflexivity | cbn; lia ]).
Qed.

Lemma fallback_glb_and_bedrooms_witness :
  exists r,
    calculate_room_config 3 = Ok r /\
    ((result_source_glb 3 = "1bhk.glb"%string /\ 2 <= Bedrooms r <= 3)
     \/ (result_source_glb 3 = "2bhk.glb"%string /\ 3 <= Bedrooms r <= 4)
     \/ (result_source_glb 3 = "3bhk.glb"%string /\ Bedrooms r = 4)
     \/ (result_source_glb 3 = "villa.glb"%string /\ Bedrooms r = 4)).
Proof.
  eexists. split; [ reflexivity | ].
  exact (fallback_glb_and_bedrooms 3 _ eq_refl).
Defined.

(** ** The lookups of floor_plan.py and front_view.py *)

Section Lookups.

Lemma get_house_type_cases (z : Z) :
  (z <= 5 /\ get_house_type z = "Single Floor House"%string)
  \/ (5 < z <= 10 /\ get_house_type z = "Duplex"%string)
  \/ (10 < z /\ get_house_type z = "Villa"%string).
Proof.
  unfold get_house_type.
  destruct (Z.leb_spec z 5); [ left; split; [ lia | reflexivity ] | ].
  destruct (Z.leb_spec z 10); [ right; left | right; right ];
    (split; [ lia | reflexivity ]).
Qed.

End Lookups.

(** X1: [get_floor_plan_suggestions] returns its default list
    ["Standard layout"] exactly for a house type that is none of the three
    keys (the comparison is case sensitive), ignores the land area, and for
    the house type computed by [get_house_type] gives four suggestions up
    to 10 cents and five above. *)
Theorem floor_plan_suggestions_default (house_type : string) (land_cents : Z) :
  (get_floor_plan_suggestions house_type land_cents = [ "Standard layout"%string ]
   <-> house_type <> "Single Floor House"%string /\
       house_type <> "Duplex"%string /\ house_type <> "Villa"%string) /\
  (forall z, get_floor_plan_suggestions house_type z
             = get_floor_plan_suggestions house_type land_cents) /\
  get_floor_plan_suggestions (get_house_type land_cents) land_cents
  <> [ "Standard layout"%string ] /\
  Z.of_nat (List.length (get_floor_plan_suggestions (get_house_type land_cents) land_cents))
  = (if land_cents <=? 10 then 4 else 5).
Proof.
  split; [ | split; [ reflexivity | ] ].
  - unfold get_floor_plan_suggestions, suggestions. cbn [get].
    destruct (String.eqb_spec house_type "Single Floor House") as [-> | H1];
      [ split; [ discriminate | intros (H & _); contradiction H; reflexivity ] | ].
    destruct (String.eqb_spec house_type "Duplex") as [-> | H2];
      [ split; [ discriminate | intros (_ & H & _); contradiction H; reflexivity ] | ].
    destruct (String.eqb_spec house_type "Villa") as [-> | H3];
      [ split; [ discriminate | intros (_ & _ & H); contradiction H; reflexivity ] | ].
    split; [ intros _; repeat split; assumption | reflexivity ].
  - destruct (get_house_type_cases land_cents) as [(Hz & ->) | [(Hz & ->) | (Hz & ->)]];
      (split; [ discriminate | ]).
    + rewrite (proj2 (Z.leb_le land_cents 10)) by lia. reflexivity.
    + rewrite (proj2 (Z.leb_le land_cents 10)) by lia. reflexivity.
    + rewrite (proj2 (Z.leb_gt land_cents 10)) by lia. reflexivity.
Qed.

(** X2: [get_modern_design_elements] returns its default list exactly
    for a house type that is none of the three keys, and for every house
    type computed by [get_house_type] it gives five elements, never the
    default. *)
Theorem design_elements_default (house_type : string) (land_cents : Z) :
  (get_modern_design_elements house_type = [ "Standard design elements"%string ]
   <-> house_type <> "Single Floor House"%string /\
       house_type <> "Duplex"%string /\ house_type <> "Villa"%string) /\
  get_modern_design_elements (get_house_type land_cents)
  <> [ "Standard design elements"%string ] /\
  List.length (get_modern_design_elements (get_house_type land_cents)) = 5%nat.
Proof.
  split.
  - unfold get_modern_design_elements, elements. cbn [get].
    destruct (String.eqb_spec house_type "Single Floor House") as [-> | H1];
      [ split; [ discriminate | intros (H & _); contradiction H; reflexivity ] | ].
    destruct (String.eqb_spec house_type "Duplex") as [-> | H2];
      [ split; [ discriminate | intros (_ & H & _); contradiction H; reflexivity ] | ].
    destruct (String.eqb_spec house_type "Villa") as [-> | H3];
      [ split; [ discriminate | intros (_ & _ & H); contradiction H; reflexivity ] | ].
    split; [ intros _; repeat split; assumption | reflexivity ].
  - destruct (get_house_type_cases land_cents) as [(Hz & ->) | [(Hz & ->) | (Hz & ->)]];
      (split; [ discriminate | reflexivity ]).
Qed.

Section ColorScheme.

Lemma inner_scheme_default (d : list (string * string)) (o : string) :
  (forall k v, In (k, v) d -> v <> "Neutral color scheme"%string) ->
  (get d o "Neutral color scheme"%string = "Neutral color scheme"%string
   <-> forall k v, In (k, v) d -> o <> k).
Proof.
  induction d as [ | [k v] d IH ]; intros Hv; cbn [get].
  - split; [ intros _ k v [] | reflexivity ].
  - destruct (String.eqb_spec o k) as [-> | Hne].
    + split.
      * intros E. exfalso. apply (Hv k v); [ left; reflexivity | exact E ].
      * intros H. exfalso. apply (H k v); [ left; reflexivity | reflexivity ].
    + rewrite IH by (intros k' v' Hin; apply (Hv k' v'); right; exact Hin).
      split.
      * intros H k' v' [E | Hin]; [ injection E as <- <-; exact Hne | apply (H k' v' Hin) ].
      * intros H k' v' Hin. apply (H k' v'). right. exact Hin.
Qed.

End ColorScheme.

(** X3: [get_color_scheme] returns "Neutral color scheme" exactly when the
    house type is none of the three keys or the orientation is none of
    "North", "South", "East", "West" (both compared case sensitively); so
    for a house type computed by [get_house_type] and a compass orientation
    it never returns the default. *)
Theorem color_scheme_default (house_type orientation : string) (land_cents : Z) :
  (get_color_scheme house_type orientation = "Neutral color scheme"%string
   <-> ~ ((house_type = "Single Floor House"%string \/ house_type = "Duplex"%string
           \/ house_type = "Villa"%string)
          /\ (orientation = "North"%string \/ orientation = "South"%string
              \/ orientation = "East"%string \/ orientation = "West"%string))) /\
  (orientation = "North"%string \/ orientation = "South"%string
   \/ orientation = "East"%string \/ orientation = "West"%string ->
   get_color_scheme (get_house_type land_cents) orientation
   <> "Neutral color scheme"%string).
Proof.
  assert (Hiff :
    forall h,
      get_color_scheme h orientation = "Neutral color scheme"%string
      <-> ~ ((h = "Single Floor House"%string \/ h = "Duplex"%string
              \/ h = "Villa"%string)
             /\ (orientation = "North"%string \/ orientation = "South"%string
                 \/ orientation = "East"%string \/ orientation = "West"%string))).
  { intros h. unfold get_color_scheme, schemes. cbn [get].
    assert (Hinner :
      forall d,
        (forall k v, In (k, v) d -> v <> "Neutral color scheme"%string) ->
        (forall k, (exists v, In (k, v) d)
                   <-> (k = "North" \/ k = "South" \/ k = "East" \/ k = "West")%string) ->
        (get d orientation "Neutral color scheme"%string = "Neutral color scheme"%string
         <-> ~ (orientation = "North" \/ orientation = "South"
                \/ orientation = "East" \/ orientation = "West")%string)).
    { intros d Hv Hk. rewrite (inner_scheme_default d orientation Hv). split.
      - intros H Ho. apply Hk in Ho. destruct Ho as [v Hin]. apply (H _ _ Hin). reflexivity.
      - intros H k v Hin ->. apply H. apply Hk. exists v. exact Hin. }
    assert (Hkeys :
      forall a b c e : string,
        forall k, (exists v, In (k, v) [ ("North", a); ("South", b); ("East", c); ("West", e) ]%string)
                  <-> (k = "North" \/ k = "South" \/ k = "East" \/ k = "West")%string).
    { intros a b c e k. split.
      - intros [v [E | [E | [E | [E | []]]]]]; injection E as <- _; auto.
      - intros [-> | [-> | [-> | ->]]]; eexists; cbn; eauto 6. }
    destruct (String.eqb_spec h "Single Floor House") as [-> | H1].
    { rewrite Hinner; [ | | apply Hkeys ].
      - split; [ intros H [_ Ho]; exact (H Ho) | intros H Ho; apply H; auto ].
      - intros k v [E | [E | [E | [E | []]]]]; injection E as _ <-; discriminate. }
    destruct (String.eqb_spec h "Duplex") as [-> | H2].
    { rewrite Hinner; [ | | apply Hkeys ].
      - split; [ intros H [_ Ho]; exact (H Ho) | intros H Ho; apply H; auto ].
      - intros k v [E | [E | [E | [E | []]]]]; injection E as _ <-; discriminate. }
    destruct (String.eqb_spec h "Villa") as [-> | H3].
    { rewrite Hinner; [ | | apply Hkeys ].
      - split; [ intros H [_ Ho]; exact (H Ho) | intros H Ho; apply H; auto ].
      - intros k v [E | [E | [E | [E | []]]]]; injection E as _ <-; discriminate. }
    cbn [get]. split; [ | reflexivity ].
    intros _ [[E | [E | E]] _]; contradiction. }
  split; [ apply Hiff | ].
  intros Ho Hd. apply Hiff in Hd. apply Hd. split; [ | exact Ho ].
  destruct (get_house_type_cases land_cents) as [(_ & ->) | [(_ & ->) | (_ & ->)]]; auto.
Qed.

Lemma color_scheme_default_witness :
  ("East"%string = "North"%string \/ "East"%string = "South"%string
   \/ "East"%string = "East"%string \/ "East"%string = "West"%string) /\
  get_color_scheme (get_house_type 7) "East" <> "Neutral color scheme"%string.
Proof.
  assert (H : "East"%string = "North"%string \/ "East"%string = "South"%string
              \/ "East"%string = "East"%string \/ "East"%string = "West"%string)
    by (right; right; left; reflexivity).
  split; [ exact H | ].
  exact (proj2 (color_scheme_default "Villa" "East" 7) H).
Defined.

(** X4: the number of landscaping suggestions follows the house type of
    the same land area: three for a "Single Floor House", four for a
    "Duplex" and five for a "Villa", whatever house type is passed in. *)
Theorem landscaping_follows_house_type (house_type : string) (land_cents : Z) :
  (forall h, get_landscaping_suggestions h land_cents
             = get_landscaping_suggestions house_type land_cents) /\
  (get_house_type land_cents = "Single Floor House"%string /\
   List.length (get_landscaping_suggestions house_type land_cents) = 3%nat
   \/ get_house_type land_cents = "Duplex"%string /\
      List.length (get_landscaping_suggestions house_type land_cents) = 4%nat
   \/ get_house_type land_cents = "Villa"%string /\
      List.length (get_landscaping_suggestions house_type land_cents) = 5%nat).
Proof.
  split; [ reflexivity | ].
  unfold get_house_type, get_landscaping_suggestions.
  destruct (land_cents <=? 5); [ left; split; reflexivity | ].
  destruct (land_cents <=? 10); [ right; left | right; right ]; split; reflexivity.
Qed.

(** ** Texts: the front design and the advisers *)

Section Strings.

Lemma append_length (a b : string) :
  String.length (a ++ b) = (String.length a + String.length b)%nat.
Proof. induction a as [ | c a IH ]; simpl; [ reflexivity | rewrite IH; reflexivity ]. Qed.

Lemma append_inv_head (p a b : string) : (p ++ a = p ++ b)%string -> a = b.
Proof.
  induction p as [ | c p IH ]; simpl; intros H; [ exact H | ].
  injection H as H. apply IH. exact H.
Qed.

Lemma append_inv_tail (a b s : string) : (a ++ s = b ++ s)%string -> a = b.
Proof.
  revert b. induction a as [ | c a IH ]; intros [ | d b ] H; simpl in H.
  - reflexivity.
  - exfalso. apply (f_equal String.length) in H. simpl in H.
    rewrite append_length in H. lia.
  - exfalso. apply (f_equal String.length) in H. simpl in H.
    rewrite append_length in H. lia.
  - injection H as -> H. f_equal. apply IH. exact H.
Qed.

Lemma append_nonempty (a b : string) : a <> EmptyString -> (a ++ b)%string <> EmptyString.
Proof. destruct a; simpl; [ congruence | discriminate ]. Qed.

Lemma prefix_trans (a b c : string) :
  String.prefix a b = true -> String.prefix b c = true -> String.prefix a c = true.
Proof.
  revert b c. induction a as [ | x a IH ]; intros b c Hab Hbc;
    [ destruct c; reflexivity | ].
  destruct b as [ | y b ]; [ discriminate | ].
  destruct c as [ | z c ]; [ discriminate | ].
  simpl in *.
  destruct (ascii_dec x y) as [-> | ]; [ | discriminate ].
  destruct (ascii_dec y z) as [-> | ]; [ | discriminate ].
  apply (IH b c); assumption.
Qed.

(** A text that contains a keyword contains every prefix of the keyword. *)
Lemma contains_prefix (q k1 k2 : string) :
  String.prefix k1 k2 = true -> contains q k2 = true -> contains q k1 = true.
Proof.
  intros Hk. induction q as [ | c q IH ]; cbn [contains]; intros H.
  - rewrite orb_false_r in *. apply (prefix_trans k1 k2); assumption.
  - apply orb_true_iff in H. apply orb_true_iff. destruct H as [H | H].
    + left. apply (prefix_trans k1 k2); assumption.
    + right. apply IH. exact H.
Qed.

End Strings.

(** X5: the front design text determines the orientation and the branch
    that produced it: two calls give the same text only for the same
    orientation and for house types of the same kind ("Single Floor
    House", "Duplex", or anything else). *)
Theorem front_design_injective (h1 h2 o1 o2 : string) :
  get_front_design h1 o1 = get_front_design h2 o2 ->
  o1 = o2 /\
  (h1 = "Single Floor House"%string <-> h2 = "Single Floor House"%string) /\
  (h1 = "Duplex"%string <-> h2 = "Duplex"%string).
Proof.
  unfold get_front_design. cbv zeta.
  assert (Hcancel :
    forall p a b : string,
      (p ++ (a ++ "-facing entry with modern light placement") ++ "."
       = p ++ (b ++ "-facing entry with modern light placement") ++ ".")%string ->
      a = b).
  { intros p a b H. apply append_inv_head in H.
    apply append_inv_tail in H. apply append_inv_tail in H. exact H. }
  destruct (String.eqb_spec h1 "Single Floor House") as [E1 | N1];
    [ | destruct (String.eqb_spec h1 "Duplex") as [D1 | M1] ];
    (destruct (String.eqb_spec h2 "Single Floor House") as [E2 | N2];
     [ | destruct (String.eqb_spec h2 "Duplex") as [D2 | M2] ]);
    intros H; try (simpl in H; discriminate H);
    apply Hcancel in H; subst; repeat split; try tauto; try congruence;
    intros; try discriminate; try contradiction.
Qed.

Lemma front_design_injective_witness :
  get_front_design "Villa" "East" = get_front_design "Bungalow" "East" /\
  "East"%string = "East"%string /\
  ("Villa"%string = "Single Floor House"%string
   <-> "Bungalow"%string = "Single Floor House"%string) /\
  ("Villa"%string = "Duplex"%string <-> "Bungalow"%string = "Duplex"%string).
Proof.
  assert (H : get_front_design "Villa" "East" = get_front_design "Bungalow" "East")
    by reflexivity.
  split; [ exact H | exact (front_design_injective "Villa" "Bungalow" "East" "East" H) ].
Defined.

Section AdviceTexts.

Variables lower strip : string -> string.

Lemma fallback_answer_nonempty (question : option string) :
  _fallback_answer lower question <> EmptyString.
Proof.
  unfold _fallback_answer. cbv zeta.
  destruct (existsb _ _); [ discriminate | ].
  destruct (_ || _); [ discriminate | ].
  destruct (_ || _); [ discriminate | ].
  destruct (contains _ _); discriminate.
Qed.

Lemma attempts_nonempty (g : nat -> generation) (question : option string)
  (n i : nat) (last_error : string) :
  attempts lower strip g question n i last_error <> EmptyString.
Proof.
  revert i last_error. induction n as [ | n IH ]; intros i last_error; cbn [attempts].
  - discriminate.
  - destruct (g i) as [t | e].
    + destruct (String.eqb_spec (strip (or_empty t)) EmptyString) as [E | N].
      * apply fallback_answer_nonempty.
      * exact N.
    + apply IH.
Qed.

End AdviceTexts.

(** X10: the two fallback advisers pick the same topic for every query,
    except that the agent also takes "estimat" (as in "estimate") for a
    cost question, which the view's adviser does not. *)
Theorem advisers_agree_on_topic (lower : string -> string) (query : option string) :
  let q := lower (or_empty query) in
  let b := _basic_advice lower query in
  let f := _fallback_answer lower query in
  (b = "Rough build cost: ₹1,200–2,000 per sq ft depending on materials and location."%string
   /\ f = "Typical build cost ranges ₹1,200–2,000/sq ft based on materials and finish."%string)
  \/ (b = "North/East facing maximize daylight; add shading for West, buffer spaces for South."%string
      /\ f = "Prefer East/North facing for light; shade West walls and buffer harsh South sun."%string)
  \/ (b = "Good sizes: Master 12x14 ft, Bedroom 10x12 ft, Living 16x20 ft, Kitchen 10x12 ft."%string
      /\ f = "Good sizes: Master 12×14 ft, Bedroom 10×12 ft, Living 16×20 ft, Kitchen 10×12 ft."%string)
  \/ (b = "Allocate ~60% construction, 20% materials, 15% labor, 5% permits; keep 10% buffer."%string
      /\ f = "Allocate ~60% build, 20% materials, 15% labour, 5% approvals; keep 10% buffer."%string)
  \/ (b = "I can help with costs, sizes, orientation, and materials. Ask a specific question."%string
      /\ f = "I can help with costs, sizes, orientation and materials. Ask a specific question."%string)
  \/ (contains q "estimat" = true /\ contains q "estimation" = false /\
      contains q "cost" = false /\ contains q "price" = false /\
      f = "Typical build cost ranges ₹1,200–2,000/sq ft based on materials and finish."%string).
Proof.
  cbv zeta. unfold _basic_advice, _fallback_answer. cbv zeta. cbn [existsb].
  set (q := lower (or_empty query)).
  rewrite !orb_false_r.
  assert (Hest : contains q "estimation" = true -> contains q "estimat" = true)
    by (apply contains_prefix; reflexivity).
  destruct (contains q "cost"); [ left; split; reflexivity | ].
  destruct (contains q "price");
    [ rewrite orb_true_r; cbn [orb]; left; split; reflexivity | ].
  cbn [orb]. rewrite !orb_false_r.
  destruct (contains q "estimation") eqn:E1.
  { rewrite (Hest eq_refl). left. split; reflexivity. }
  destruct (contains q "estimat") eqn:E2.
  { do 5 right. repeat split. }
  rewrite (orb_comm (contains q "size") (contains q "room")).
  destruct (contains q "orientation" || contains q "facing");
    [ right; left; split; reflexivity | ].
  destruct (contains q "room" || contains q "size");
    [ right; right; left; split; reflexivity | ].
  destruct (contains q "budget");
    [ right; right; right; left; split; reflexivity
    | right; right; right; right; left; split; reflexivity ].
Qed.

(** X11: [ask_ai] never returns an empty answer, whatever the question,
    the state of the model and the outcome of its calls; without a model
    it returns the fallback answer, and after two failed calls the text
    "AI unavailable: <the last error>. <the fallback answer>". *)
Theorem ask_ai_never_empty
  (lower strip : string -> string) (model : option (nat -> generation))
  (question : option string) (context : string) :
  ask_ai lower strip model question context <> EmptyString /\
  (forall q, question = Some q -> q <> EmptyString -> model = None ->
             ask_ai lower strip model question context
             = _fallback_answer lower question) /\
  (forall q g e1 e2,
      question = Some q -> q <> EmptyString -> model = Some g ->
      g 0%nat = Failed e1 -> g 1%nat = Failed e2 ->
      ask_ai lower strip model question context
      = ("AI unavailable: " ++ e2 ++ ". " ++ _fallback_answer lower question)%string).
Proof.
  split; [ | split ].
  - unfold ask_ai. destruct question as [q | ]; [ | discriminate ].
    destruct (String.eqb q EmptyString); [ discriminate | ].
    destruct model as [g | ].
    + apply attempts_nonempty.
    + apply fallback_answer_nonempty.
  - intros q -> Hq ->. unfold ask_ai.
    destruct (String.eqb_spec q EmptyString); [ contradiction | reflexivity ].
  - intros q g e1 e2 -> Hq -> H1 H2. unfold ask_ai.
    destruct (String.eqb_spec q EmptyString); [ contradiction | ].
    cbn [attempts]. rewrite H1, H2. reflexivity.
Qed.

Lemma ask_ai_never_empty_witness :
  ask_ai (fun s => s) (fun s => s)
    (Some (fun _ : nat => Failed "timeout")) (Some "What will it cost?"%string) EmptyString
  = ("AI unavailable: timeout. "
     ++ _fallback_answer (fun s => s) (Some "What will it cost?"%string))%string.
Proof.
  refine (proj2 (proj2 (ask_ai_never_empty (fun s => s) (fun s => s)
            (Some (fun _ : nat => Failed "timeout")) (Some "What will it cost?"%string)
            EmptyString)) "What will it cost?"%string (fun _ => Failed "timeout")
            "timeout"%string "timeout"%string eq_refl _ eq_refl eq_refl eq_refl).
  discriminate.
Defined.

(** ** Land areas whose square footage is infinite *)

Section InfiniteProduct.

Lemma sqft_mag_max_finite : sqft_mag max_finite_area < inf_val.
Proof. vm_compute. reflexivity. Qed.

Lemma sqft_mag_past_max_finite : sqft_mag (max_finite_area + 1) = inf_val.
Proof. vm_compute. reflexivity. Qed.

Lemma max_finite_area_in_range : 0 < max_finite_area < max_int.
Proof. split; vm_compute; reflexivity. Qed.

Lemma sqft_mag_finite_iff (a : Z) :
  0 <= a -> (sqft_mag a < inf_val <-> a <= max_finite_area).
Proof.
  intros Ha. split.
  - intros H. destruct (Z_le_gt_dec a max_finite_area) as [ | Hgt ]; [ assumption | ].
    exfalso.
    pose proof (sqft_mag_mono (max_finite_area + 1) a) as Hm.
    pose proof max_finite_area_in_range.
    rewrite sqft_mag_past_max_finite in Hm. lia.
  - intros H. pose proof (sqft_mag_mono a max_finite_area ltac:(lia)).
    pose proof sqft_mag_max_finite. lia.
Qed.

(** The product is an infinity exactly past [max_finite_area]. *)
Lemma int_mul_infinite (z : Z) (x : float) :
  int_mul z c435_6 = Ok x -> max_finite_area < Z.abs z ->
  x = S754_infinity (z <? 0).
Proof.
  intros Hx Hz.
  destruct (int_mul_ok_inv z x Hx) as (_ & Hg & Hv).
  assert (Hinf : sqft_mag (Z.abs z) = inf_val).
  { pose proof (sqft_mag_le_inf (Z.abs z)).
    pose proof (sqft_mag_finite_iff (Z.abs z) ltac:(lia)). lia. }
  unfold sqft_val in Hv. rewrite Hinf in Hv.
  pose proof inf_val_pos as Hp. pose proof max_finite_area_in_range as Hb.
  destruct x as [s | s | | s m e]; cbn [good val] in Hg, Hv.
  - exfalso. destruct (Z.sgn_spec z) as [(? & E) | [(? & E) | (? & E)]];
      rewrite E in Hv; lia.
  - f_equal.
    destruct s, (Z.ltb_spec z 0), (Z.sgn_spec z) as [(? & E) | [(? & E) | (? & E)]];
      rewrite E in Hv; try reflexivity; lia.
  - contradiction.
  - exfalso. destruct Hg as [Hm He]. pose proof (finite_val_bounds m e Hm He).
    destruct s, (Z.sgn_spec z) as [(? & E) | [(? & E) | (? & E)]];
      rewrite E in Hv; lia.
Qed.

End InfiniteProduct.

(** X13: the result view's [int(round(land_cents * 435.6))] returns an
    integer exactly for land areas of magnitude at most
    10586974330641385 * 2^962 and raises [OverflowError] for every larger
    one; in the band above it that [float] still converts,
    [calculate_room_config] does not raise: the product is an infinity, and
    it returns the 4-bedroom record with "inf sq ft" for a positive area and
    the 2-bedroom record with "-inf sq ft" for a negative one. *)
Theorem infinite_square_footage (land_cents : Z) :
  (Z.abs land_cents <= max_finite_area <-> exists n, result_sqft land_cents = Ok n) /\
  (max_finite_area < Z.abs land_cents ->
   result_sqft land_cents = Raise OverflowError) /\
  (max_finite_area < Z.abs land_cents <= max_int ->
   calculate_room_config land_cents
   = Ok (if land_cents <? 0
         then RoomConfig 2 1 1 1 "1 compact" "Small balcony" "-inf sq ft"
         else RoomConfig 4 3 2 2 "2-car garage" "Large balcony + terrace" "inf sq ft")).
Proof.
  pose proof max_finite_area_in_range as Hb.
  assert (Hraise : max_finite_area < Z.abs land_cents ->
                   result_sqft land_cents = Raise OverflowError).
  { intros Hz. unfold result_sqft.
    destruct (int_mul land_cents c435_6) as [x | e] eqn:Hx; cbn [bind].
    - rewrite (int_mul_infinite _ _ Hx Hz). reflexivity.
    - assert (Hout : ~ in_range land_cents).
      { intros Hr. destruct (int_mul_in_range _ Hr) as (y & Hy & _). congruence. }
      rewrite (int_mul_out_of_range _ Hout) in Hx. congruence. }
  split; [ | split; [ exact Hraise | ] ].
  - split.
    + intros Hz.
      assert (Hr : in_range land_cents) by (unfold in_range; lia).
      destruct (int_mul_in_range _ Hr) as (x & Hx & _).
      assert (Hfin : sqft_mag (Z.abs land_cents) < inf_val)
        by (apply sqft_mag_finite_iff; lia).
      destruct (int_mul_display _ _ Hx Hfin) as [Hround _].
      eexists. unfold result_sqft. rewrite Hx. cbn [bind]. exact Hround.
    + intros [n Hn].
      destruct (Z_le_gt_dec (Z.abs land_cents) max_finite_area) as [ | Hgt ];
        [ assumption | ].
      rewrite (Hraise ltac:(lia)) in Hn. discriminate.
  - intros [Hlo Hhi].
    assert (Hr : in_range land_cents) by (unfold in_range; lia).
    destruct (int_mul_in_range _ Hr) as (x & Hx & _).
    rewrite (calculate_room_config_ok _ _ Hx).
    rewrite (int_mul_infinite _ _ Hx Hlo).
    destruct (land_cents <? 0); reflexivity.
Qed.

Lemma infinite_square_footage_witness :
  max_finite_area < Z.abs (- (10 ^ 306)) <= max_int /\
  result_sqft (- (10 ^ 306)) = Raise OverflowError /\
  calculate_room_config (- (10 ^ 306))
  = Ok (RoomConfig 2 1 1 1 "1 compact" "Small balcony" "-inf sq ft").
Proof.
  assert (H : max_finite_area < Z.abs (- (10 ^ 306)) <= max_int)
    by (split; vm_compute; [ reflexivity | discriminate ]).
  split; [ exact H | ].
  destruct (infinite_square_footage (- (10 ^ 306))) as (_ & T2 & T3).
  split; [ exact (T2 (proj1 H)) | exact (T3 H) ].
Defined.

(** ** The fallback reports *)

Section VillaBranches.

(** Every house type of [get_house_type] takes the last branch of the
    three report chains. *)
Lemma villa_branches_only
  (land_cents : Z) (fallback_project_id orientation : string) (sqft : Z) :
  let house_type := get_house_type land_cents in
  startswith (upper house_type) "1BHK" = false /\
  startswith (upper house_type) "2BHK" = false /\
  startswith (upper house_type) "3BHK" = false /\
  summary_content house_type fallback_project_id orientation sqft
  = SummaryVilla fallback_project_id orientation sqft /\
  technical_content house_type sqft = TechnicalVilla sqft /\
  cost_content house_type sqft = CostVilla sqft (sqft * 2500).
Proof.
  unfold get_house_type.
  destruct (land_cents <=? 5); [ | destruct (land_cents <=? 10) ]; cbv zeta;
    repeat split.
Qed.

Lemma result_sqft_finite (z : Z) :
  Z.abs z <= max_finite_area -> exists n, result_sqft z = Ok n.
Proof.
  intros Hz. pose proof max_finite_area_in_range as Hb.
  assert (Hr : in_range z) by (unfold in_range; lia).
  destruct (int_mul_in_range _ Hr) as (x & Hx & _).
  assert (Hfin : sqft_mag (Z.abs z) < inf_val) by (apply sqft_mag_finite_iff; lia).
  destruct (int_mul_display _ _ Hx Hfin) as [Hround _].
  eexists. unfold result_sqft. rewrite Hx. cbn [bind]. exact Hround.
Qed.

Lemma result_sqft_infinite (z : Z) :
  max_finite_area < Z.abs z -> result_sqft z = Raise OverflowError.
Proof.
  intros Hz. unfold result_sqft.
  destruct (int_mul z c435_6) as [x | e] eqn:Hx; cbn [bind].
  - rewrite (int_mul_infinite _ _ Hx Hz). reflexivity.
  - assert (Hout : ~ in_range z).
    { intros Hr. destruct (int_mul_in_range _ Hr) as (y & Hy & _). congruence. }
    rewrite (int_mul_out_of_range _ Hout) in Hx. congruence.
Qed.

End VillaBranches.

(** C10 (as stated): a land area for which the fallback path produces no
    report: the sizing returns, [int(round(land_cents * 435.6))] raises
    inside the report block, and the exception is swallowed. *)
Lemma C10_no_report_counterexample :
  is_ok (calculate_room_config (10 ^ 306)) = true /\
  result_sqft (10 ^ 306) = Raise OverflowError /\
  fallback_reports (10 ^ 306) "North" "20260101_120000" = Ok None.
Proof. repeat split; vm_compute; reflexivity. Qed.

(** C10 (amended): every string returned by [get_house_type] fails the
    uppercased [startswith] tests for '1BHK', '2BHK' and '3BHK', so every
    report the fallback path produces is the Villa variant; it produces the
    three reports exactly for land areas of magnitude at most
    10586974330641385 * 2^962; for larger ones that [float] converts no
    report is produced, and beyond those the path raises. *)
Theorem C10_villa_reports_when_produced
  (land_cents : Z) (fallback_project_id orientation : string) :
  let house_type := get_house_type land_cents in
  (house_type = "Single Floor House"%string \/ house_type = "Duplex"%string
   \/ house_type = "Villa"%string) /\
  startswith (upper house_type) "1BHK" = false /\
  startswith (upper house_type) "2BHK" = false /\
  startswith (upper house_type) "3BHK" = false /\
  (forall reports,
      fallback_reports land_cents orientation fallback_project_id = Ok (Some reports) ->
      exists sqft,
        result_sqft land_cents = Ok sqft /\
        reports = (SummaryVilla fallback_project_id orientation sqft,
                   TechnicalVilla sqft,
                   CostVilla sqft (sqft * 2500))) /\
  (Z.abs land_cents <= max_finite_area ->
   exists sqft,
     result_sqft land_cents = Ok sqft /\
     fallback_reports land_cents orientation fallback_project_id
     = Ok (Some (SummaryVilla fallback_project_id orientation sqft,
                 TechnicalVilla sqft,
                 CostVilla sqft (sqft * 2500)))) /\
  (max_finite_area < Z.abs land_cents <= max_int ->
   fallback_reports land_cents orientation fallback_project_id = Ok None) /\
  (max_int < Z.abs land_cents ->
   fallback_reports land_cents orientation fallback_project_id
   = Raise OverflowError).
Proof.
  cbv zeta. pose proof max_finite_area_in_range as Hb.
  assert (Hv : forall sqft,
    (summary_content (get_house_type land_cents) fallback_project_id orientation sqft,
     technical_content (get_house_type land_cents) sqft,
     cost_content (get_house_type land_cents) sqft)
    = (SummaryVilla fallback_project_id orientation sqft,
       TechnicalVilla sqft, CostVilla sqft (sqft * 2500))).
  { intros sqft.
    destruct (villa_branches_only land_cents fallback_project_id orientation sqft)
      as (_ & _ & _ & -> & -> & ->). reflexivity. }
  split.
  { unfold get_house_type.
    destruct (land_cents <=? 5); [ left; reflexivity | ].
    destruct (land_cents <=? 10); [ right; left | right; right ]; reflexivity. }
  destruct (villa_branches_only land_cents fallback_project_id orientation 0)
    as (S1 & S2 & S3 & _).
  split; [ exact S1 | ]. split; [ exact S2 | ]. split; [ exact S3 | ].
  split; [ | split; [ | split ] ].
  - intros reports. unfold fallback_reports. cbv zeta.
    destruct (calculate_room_config land_cents) as [rc | e]; cbn [bind]; [ | discriminate ].
    destruct (result_sqft land_cents) as [sqft | e]; [ | discriminate ].
    intros H. injection H as <-. exists sqft. split; [ reflexivity | apply Hv ].
  - intros Hz. destruct (result_sqft_finite land_cents Hz) as [sqft Hs].
    exists sqft. split; [ exact Hs | ].
    assert (Hr : in_range land_cents) by (unfold in_range; lia).
    destruct (int_mul_in_range _ Hr) as (x & Hx & _).
    unfold fallback_reports. cbv zeta.
    rewrite (calculate_room_config_ok _ _ Hx). cbn [bind].
    rewrite Hs, Hv. reflexivity.
  - intros [Hlo Hhi].
    assert (Hr : in_range land_cents) by (unfold in_range; lia).
    destruct (int_mul_in_range _ Hr) as (x & Hx & _).
    unfold fallback_reports. cbv zeta.
    rewrite (calculate_room_config_ok _ _ Hx). cbn [bind].
    rewrite (result_sqft_infinite _ Hlo). reflexivity.
  - intros Hz.
    assert (Hr : ~ in_range land_cents) by (unfold in_range; lia).
    unfold fallback_reports. cbv zeta.
    rewrite (calculate_room_config_overflow _ Hr). reflexivity.
Qed.

Lemma C10_villa_reports_when_produced_witness :
  Z.abs 7 <= max_finite_area /\
  exists sqft,
    result_sqft 7 = Ok sqft /\
    fallback_reports 7 "East" "20260101_120000"
    = Ok (Some (SummaryVilla "20260101_120000" "East" sqft,
                TechnicalVilla sqft,
                CostVilla sqft (sqft * 2500))).
Proof.
  assert (H : Z.abs 7 <= max_finite_area) by (vm_compute; discriminate).
  split; [ exact H | ].
  destruct (C10_villa_reports_when_produced 7 "20260101_120000" "East")
    as (_ & _ & _ & _ & _ & T & _).
  exact (T H).
Defined.
